(** * yaml_to_html: a weekly schedule rendered as one HTML page

    A shallow embedding of [yaml_to_html.py] and the properties of its
    rendering pipeline (escape, day ordering, slot / lecture / attendee
    rendering, page assembly, entry point).

    Python text is a sequence of Unicode code points; documents are the
    dynamically typed values that [yaml.safe_load] builds; exceptions are
    an explicit error result; the file system and the standard streams are
    threaded as a state. *)

From Stdlib Require Import List String Ascii ZArith NArith Lia Bool.
From Stdlib Require Import Numbers.DecimalString.
From Stdlib Require Import Sorting.Permutation.
Import ListNotations.

Open Scope list_scope.

(* ===================================================================== *)
(** ** Text *)
(* ===================================================================== *)

(** A Python [str]: its code points, in order. *)
Definition str := list N.

(** Source literals are written as Rocq strings in which a backtick stands
    for the double quote of the Python source (the source has no backtick
    of its own); every other character is ASCII and stands for itself. *)
Definition q_char (a : ascii) : N :=
  if Ascii.eqb a "`"%char then 34%N else N_of_ascii a.

Definition q (s : string) : str := map q_char (list_ascii_of_string s).

Definition str_eqb (a b : str) : bool :=
  if list_eq_dec N.eq_dec a b then true else false.

(** [p] is a prefix of [s]. *)
Fixpoint starts (p s : str) : bool :=
  match p, s with
  | [], _ => true
  | _ :: _, [] => false
  | a :: p', b :: s' => N.eqb a b && starts p' s'
  end.

(** [old in s]: substring test. *)
Fixpoint occurs (old s : str) : bool :=
  starts old s ||
  match s with
  | [] => false
  | _ :: s' => occurs old s'
  end.

(** The scan of [str.replace] for a non-empty pattern: left to right, a
    match is replaced and the scan resumes after it ([skip] counts the
    characters of the match still to pass over). *)
Fixpoint replace_from (old new : str) (skip : nat) (s : str) : str :=
  match s with
  | [] => []
  | c :: s' =>
      match skip with
      | S k => replace_from old new k s'
      | O =>
          if starts old s
          then new ++ replace_from old new (List.length old - 1) s'
          else c :: replace_from old new 0 s'
      end
  end.

(** [s.replace(old, new)]: every non-overlapping occurrence, leftmost first.
    With an empty pattern Python inserts [new] around every character. *)
Definition str_replace (s old new : str) : str :=
  match old with
  | [] => new ++ flat_map (fun c => c :: new) s
  | _ :: _ => replace_from old new 0 s
  end.

(** [sep.join(parts)]. *)
Fixpoint join (sep : str) (parts : list str) : str :=
  match parts with
  | [] => []
  | [p] => p
  | p :: rest => p ++ sep ++ join sep rest
  end.

(** [html.escape(s)] of the standard library, with its default
    [quote=True]: five replacements, the ampersand first. *)
Definition html_escape (s : str) : str :=
  let s := str_replace s (q "&") (q "&amp;") in
  let s := str_replace s (q "<") (q "&lt;") in
  let s := str_replace s (q ">") (q "&gt;") in
  let s := str_replace s (q "`") (q "&quot;") in
  let s := str_replace s (q "'") (q "&#x27;") in
  s.

(** The newline of the source's [join]s. *)
Definition NL : str := [10%N].

(** The em-dash, U+2014. *)
Definition EM_DASH : str := [8212%N].

(* ===================================================================== *)
(** ** Documents: the values [yaml.safe_load] builds *)
(* ===================================================================== *)

(** Mapping keys are hashable scalars. *)
Inductive key :=
| KNone
| KBool (b : bool)
| KInt (z : Z)
| KStr (s : str).

#[local] Set Warnings "-register-all".

(** None, booleans, integers, text, sequences and mappings. A mapping keeps
    its insertion order, as a Python [dict] does. (Floats, dates and binary
    scalars are outside this embedding.) *)
Inductive value :=
| VNone
| VBool (b : bool)
| VInt (z : Z)
| VStr (s : str)
| VList (l : list value)
| VDict (d : list (key * value)).

Definition dict := list (key * value).

Definition value_of_key (k : key) : value :=
  match k with
  | KNone => VNone
  | KBool b => VBool b
  | KInt z => VInt z
  | KStr s => VStr s
  end.

(** Python's [==] on keys: [True == 1] and [False == 0]. *)
Definition key_norm (k : key) : key :=
  match k with
  | KBool b => KInt (if b then 1 else 0)
  | _ => k
  end.

Definition key_eqb (a b : key) : bool :=
  match key_norm a, key_norm b with
  | KNone, KNone => true
  | KInt x, KInt y => Z.eqb x y
  | KStr s, KStr t => str_eqb s t
  | _, _ => false
  end.

Definition keys (d : dict) : list key := map fst d.

Fixpoint key_in (k : key) (ks : list key) : bool :=
  match ks with
  | [] => false
  | k' :: ks' => key_eqb k' k || key_in k ks'
  end.

(** A [dict] holds no two equal keys. *)
Fixpoint keys_unique (ks : list key) : bool :=
  match ks with
  | [] => true
  | k :: ks' => negb (key_in k ks') && keys_unique ks'
  end.

Fixpoint lookup (d : dict) (k : key) : option value :=
  match d with
  | [] => None
  | (k', v) :: d' => if key_eqb k' k then Some v else lookup d' k
  end.

(** [k in d]. *)
Definition dict_mem (d : dict) (k : key) : bool :=
  match lookup d k with Some _ => true | None => false end.

(** [d.get(k, default)]. *)
Definition dict_get (d : dict) (k : key) (default : value) : value :=
  match lookup d k with Some v => v | None => default end.

(** Truth value of an object. *)
Definition truthy (v : value) : bool :=
  match v with
  | VNone => false
  | VBool b => b
  | VInt z => negb (Z.eqb z 0)
  | VStr s => match s with [] => false | _ => true end
  | VList l => match l with [] => false | _ => true end
  | VDict d => match d with [] => false | _ => true end
  end.

(** [x or y]. *)
Definition py_or (x y : value) : value := if truthy x then x else y.

(* ===================================================================== *)
(** ** Exceptions *)
(* ===================================================================== *)

Inductive exn :=
| AttributeError
| TypeError
| KeyError
| IndexError
| FileNotFoundError
| IsADirectoryError
| UnicodeEncodeError
(** Anything else the environment or a library raises (a parse error of
    PyYAML, a decoding error, a refused write), by its name. *)
| OtherError (name : str).

Inductive result (A : Type) :=
| Ok (a : A)
| Raise (e : exn).

Arguments Ok {A} a.
Arguments Raise {A} e.

Definition bind {A B} (r : result A) (k : A -> result B) : result B :=
  match r with
  | Ok a => k a
  | Raise e => Raise e
  end.

Notation "x <- e ;; k" := (bind e (fun x => k))
  (at level 61, e at next level, right associativity).

Fixpoint mapM {A B} (f : A -> result B) (l : list A) : result (list B) :=
  match l with
  | [] => Ok []
  | a :: l' => b <- f a ;; bs <- mapM f l' ;; Ok (b :: bs)
  end.

(** The receiver of [.get]: anything but a mapping has no such attribute. *)
Definition as_dict (v : value) : result dict :=
  match v with
  | VDict d => Ok d
  | _ => Raise AttributeError
  end.

(** [for x in v]: the elements of a sequence, the characters of a text,
    the keys of a mapping; other objects are not iterable. *)
Definition py_iter (v : value) : result (list value) :=
  match v with
  | VList l => Ok l
  | VStr s => Ok (map (fun c => VStr [c]) s)
  | VDict d => Ok (map value_of_key (keys d))
  | _ => Raise TypeError
  end.

(** [v[i]] for a literal index [i] that is not negative. *)
Definition getitem (v : value) (i : nat) : result value :=
  match v with
  | VList l =>
      match nth_error l i with Some x => Ok x | None => Raise IndexError end
  | VStr s =>
      match nth_error s i with Some c => Ok (VStr [c]) | None => Raise IndexError end
  | VDict d =>
      match lookup d (KInt (Z.of_nat i)) with Some x => Ok x | None => Raise KeyError end
  | _ => Raise TypeError
  end.

(** [isinstance(v, (list, tuple))]: the loader builds no tuple. *)
Definition isinstance_list (v : value) : bool :=
  match v with VList _ => true | _ => false end.

(* ===================================================================== *)
(** ** What the Python runtime and its libraries supply *)
(* ===================================================================== *)

(** The program relies on a few functions that live in the interpreter and
    in PyYAML rather than in the repository. They are taken as given. *)
Record Runtime := {
  (** [str(v)] of a sequence or a mapping (built from the [repr] of its items). *)
  str_of_container : value -> str;
  (** Unicode title-casing of one code point above ASCII. *)
  title_nonascii : N -> str;
  (** Unicode lower-casing of the code point at an index of a text, above
      ASCII (the final sigma depends on its context). *)
  lower_nonascii : str -> nat -> N -> str;
  (** [yaml.safe_load] on the text of a file. *)
  safe_load : str -> result value;
  (** [Path.resolve()], shown as text. *)
  resolve : str -> str
}.

(** Case mapping of the ASCII letters; the other ASCII characters have no
    case. *)
Definition ascii_upper (c : N) : N :=
  if (97 <=? c)%N && (c <=? 122)%N then (c - 32)%N else c.

Definition ascii_lower (c : N) : N :=
  if (65 <=? c)%N && (c <=? 90)%N then (c + 32)%N else c.

Section Program.

Variable rt : Runtime.

(** [str(v)]. *)
Definition py_str (v : value) : str :=
  match v with
  | VNone => q "None"
  | VBool true => q "True"
  | VBool false => q "False"
  | VInt z => q (NilZero.string_of_int (Z.to_int z))
  | VStr s => s
  | VList _ | VDict _ => str_of_container rt v
  end.

(** Title case of the first character, lower case of a later one. *)
Definition to_title (c : N) : str :=
  if (c <? 128)%N then [ascii_upper c] else title_nonascii rt c.

Definition to_lower (s : str) (i : nat) (c : N) : str :=
  if (c <? 128)%N then [ascii_lower c] else lower_nonascii rt s i c.

Fixpoint lower_from (s : str) (i : nat) (rest : str) : str :=
  match rest with
  | [] => []
  | c :: r => to_lower s i c ++ lower_from s (S i) r
  end.

(** [s.capitalize()]: the first character in title case, the others in
    lower case. *)
Definition capitalize (s : str) : str :=
  match s with
  | [] => []
  | c :: r => to_title c ++ lower_from s 1 r
  end.

(** [day.capitalize()] on a mapping key: only text has the method. *)
Definition key_capitalize (day : key) : result str :=
  match day with
  | KStr s => Ok (capitalize s)
  | _ => Raise AttributeError
  end.

(* ===================================================================== *)
(** ** The renderers *)
(* ===================================================================== *)

(** [html.escape] of the empty text for [None], of [str(s)] otherwise. *)
Definition _escape (s : value) : str :=
  html_escape (match s with VNone => [] | _ => py_str s end).

(** One attendee as a pill. *)
Definition att_pill (a : value) : str :=
  q "<span class=`att-pill`>" ++ _escape a ++ q "</span>".

(** HTML for attendees as pill elements; an em-dash when there is none. *)
Definition render_attendees (attendees : value) : result str :=
  if negb (truthy attendees) then Ok EM_DASH
  else
    items <- py_iter attendees ;;
    Ok (join (q " ") (map att_pill items)).

(** A single lecture block. *)
Definition render_lecture (lec : value) : result str :=
  d <- as_dict lec ;;
  let title := _escape (dict_get d (KStr (q "lecture")) (VStr [])) in
  attendees_html <- render_attendees (dict_get d (KStr (q "attendees")) (VList [])) ;;
  Ok (q "<div class=`lecture`>"
      ++ q "  <div class=`title`>" ++ title ++ q "</div>"
      ++ q "  <div class=`attendees`>" ++ attendees_html ++ q "</div>"
      ++ q "</div>").

(** [len(time)], asked of a list only. *)
Definition len_list (v : value) : nat :=
  match v with VList l => List.length l | _ => 0 end.

(** The [start] and [end] of a slot, from the value of its [time]. *)
Definition slot_start_end (time : value) : result (value * value) :=
  if negb (isinstance_list time) || (len_list time <? 2)%nat then
    start <- (if truthy time then getitem time 0 else Ok (VStr [])) ;;
    Ok (start, VStr [])
  else
    start <- getitem time 0 ;;
    end_ <- getitem time 1 ;;
    Ok (start, end_).

(** The text of the time column. *)
Definition time_str (start end_ : value) : str :=
  if truthy start || truthy end_
  then _escape start ++ q " " ++ EM_DASH ++ q " " ++ _escape end_
  else EM_DASH.

(** The lectures column: [lectures = slot.get("lectures", []) or []] and
    the joined blocks. *)
Definition slot_lectures_html (d : dict) : result str :=
  let lectures := py_or (dict_get d (KStr (q "lectures")) (VList [])) (VList []) in
  ls <- py_iter lectures ;;
  hs <- mapM render_lecture ls ;;
  Ok (join NL hs).

(** The returned markup, from the two texts it holds. *)
Definition slot_markup (tstr lectures_html : str) : str :=
  q "<div class=`slot`>"
  ++ q "  <div class=`time`>" ++ tstr ++ q "</div>"
  ++ q "  <div class=`lectures`>" ++ lectures_html ++ q "</div>"
  ++ q "</div>".

(** A time slot with its lectures. *)
Definition render_slot (slot : value) : result str :=
  d <- as_dict slot ;;
  let time := dict_get d (KStr (q "time")) (VList []) in
  se <- slot_start_end time ;;
  let tstr := time_str (fst se) (snd se) in
  lectures_html <- slot_lectures_html d ;;
  Ok (slot_markup tstr lectures_html).

(* ===================================================================== *)
(** ** The page *)
(* ===================================================================== *)

Definition day_order : list str :=
  [q "monday"; q "tuesday"; q "wednesday"; q "thursday"; q "friday";
   q "saturday"; q "sunday"].

(** First loop of [generate_html]: the conventional days that are keys of
    [week], with the set [seen] (here a list, searched with [==]). *)
Fixpoint scan_day_order (week : dict) (ds : list str) (present seen : list key)
  : list key * list key :=
  match ds with
  | [] => (present, seen)
  | d :: ds' =>
      if dict_mem week (KStr d)
      then scan_day_order week ds' (present ++ [KStr d]) (KStr d :: seen)
      else scan_day_order week ds' present seen
  end.

(** Second loop: the remaining keys, in insertion order. *)
Fixpoint scan_keys (ks : list key) (present seen : list key) : list key :=
  match ks with
  | [] => present
  | d :: ks' =>
      if negb (key_in d seen)
      then scan_keys ks' (present ++ [d]) (d :: seen)
      else scan_keys ks' present seen
  end.

(** The list [present] once both loops have run. *)
Definition order_days (week : dict) : list key :=
  let ps := scan_day_order week day_order [] [] in
  scan_keys (keys week) (fst ps) (snd ps).

(** [week.get(day, []) or []]. *)
Definition day_slots (week : dict) (day : key) : value :=
  py_or (dict_get week day (VList [])) (VList []).

(** The markup of a day's section, from the two texts it holds. *)
Definition section_markup (day_name slots_html : str) : str :=
  q "<section class=`day-section`>"
  ++ q "  <header class=`day-header`><div class=`day-name`>" ++ day_name
  ++ q "</div></header>"
  ++ q "  <div class=`day-row`>" ++ slots_html ++ q "</div>"
  ++ q "</section>".

(** [slots_html]: the joined slots of a day. *)
Definition day_slots_html (slots : value) : result str :=
  ss <- py_iter slots ;;
  hs <- mapM render_slot ss ;;
  Ok (join NL hs).

(** The section of one day whose [slots] are not empty. *)
Definition day_section (day : key) (slots : value) : result str :=
  slots_html <- day_slots_html slots ;;
  cap <- key_capitalize day ;;
  let day_name := _escape (VStr cap) in
  Ok (section_markup day_name slots_html).

(** Third loop: [days_html_parts]. *)
Fixpoint days_html_parts (week : dict) (present : list key) : result (list str) :=
  match present with
  | [] => Ok []
  | day :: rest =>
      let slots := day_slots week day in
      if negb (truthy slots) then days_html_parts week rest
      else
        sec <- day_section day slots ;;
        secs <- days_html_parts week rest ;;
        Ok (sec :: secs)
  end.

Definition NAME_TOKEN : str := q "__NAME__".
Definition SEM_TOKEN : str := q "__SEM__".
Definition DAYS_TOKEN : str := q "__DAYS_HTML__".

Definition template_head : string :=
"<!doctype html>
<html lang=`en`>
<head>
<meta charset=`utf-8`>
<title>__NAME__ (__SEM__)</title>
<meta name=`viewport` content=`width=device-width,initial-scale=1`>
<style>
:root{
  --bg: #0b1220;
  --panel: #0f1724;
  --muted: #d7e0ea;
  --accent: #5fb8ff;
  --gap:12px;
  font-family: system-ui, -apple-system, `Segoe UI`, Roboto, `Helvetica Neue`, Arial;
  color-scheme: dark;
}
html,body{height:100%;margin:0}
body{
  margin:28px;
  background-color:var(--bg);
  color:var(--muted);
  -webkit-font-smoothing:antialiased;
  -moz-osx-font-smoothing:grayscale;
}
header{display:flex;align-items:baseline;gap:12px;margin-bottom:14px}
h1{margin:0;font-size:1.25rem}
.meta{color:rgba(215,224,234,0.9);font-size:0.95rem}
main{max-width:1100px;margin:0 auto;display:flex;flex-direction:column;gap:14px}
.day-section{
  background:var(--panel);
  border:1px solid rgba(255,255,255,0.03);
  border-radius:10px;padding:12px;
}
.day-header{display:flex;align-items:center;margin-bottom:10px}
.day-name{font-weight:700;color:var(--accent);font-size:1rem;text-transform:capitalize}
.day-row{display:flex;gap:var(--gap);flex-wrap:wrap}
.slot{min-width:220px;flex:1 1 240px;display:flex;gap:12px;align-items:flex-start;padding:12px;border-radius:10px;
  background:rgba(255,255,255,0.02);border:1px solid rgba(255,255,255,0.02)}
.time{width:96px;font-weight:700;color:var(--muted);flex-shrink:0}
.lectures{flex:1;display:flex;flex-direction:column;gap:8px}
.lecture{padding:10px;border-radius:8px;background:rgba(255,255,255,0.015);border:1px solid rgba(255,255,255,0.01)}
.title{font-weight:700;color:#fff}
.attendees{font-size:0.85rem;color:rgba(215,224,234,0.9);margin-top:8px;display:flex;gap:8px;flex-wrap:wrap}
.att-pill{padding:6px 10px;border-radius:999px;background:rgba(95,184,255,0.08);border:1px solid rgba(95,184,255,0.12);font-size:0.85rem;color:var(--muted)}
footer{margin-top:16px;color:rgba(215,224,234,0.6);font-size:0.9rem;text-align:center}
/* subtle, low-cost fade-in using opacity only (no transforms) */
.slot, .lecture, .att-pill{opacity:0}
.visible{opacity:1;transition:opacity 260ms linear}
@media (max-width:900px){ .slot{flex-basis:45%} }
@media (max-width:600px){ body{margin:14px} .slot{flex-basis:100%} .time{width:76px} }
</style>
</head>
<body>
<header>
  <h1>__NAME__</h1>
  <div class=`meta`>Semester: __SEM__</div>
</header>
<main>
__DAYS_HTML__
</main>
<footer>
  "%string.

(** The three glyphs of the footer: U+2811, U+281D, U+2819. *)
Definition template_footer_glyphs : str := [10257%N; 10269%N; 10265%N].

Definition template_tail : string :=
"
</footer>
<script>
(function(){
  var rows = document.querySelectorAll('.day-row');
  rows.forEach(function(row){
    var slots = Array.prototype.slice.call(row.querySelectorAll('.slot'));
    slots.forEach(function(slot, i){
      setTimeout(function(){ slot.classList.add('visible'); }, i * 40);
      var lecs = slot.querySelectorAll('.lecture');
      lecs.forEach(function(l, j){
        setTimeout(function(){ l.classList.add('visible'); }, i*40 + 80 + j*30);
      });
      var pills = slot.querySelectorAll('.att-pill');
      pills.forEach(function(p, k){
        setTimeout(function(){ p.classList.add('visible'); }, i*40 + 140 + k*20);
      });
    });
  });
})();
</script>
</body>
</html>
"%string.

Definition template : str :=
  Eval vm_compute in q template_head ++ template_footer_glyphs ++ q template_tail.

(** [template.replace(NAME, name).replace(SEM, semester).replace(DAYS, days_html)]. *)
Definition assemble (name semester days_html : str) : str :=
  str_replace
    (str_replace (str_replace template NAME_TOKEN name) SEM_TOKEN semester)
    DAYS_TOKEN days_html.

(** The loops of [generate_html] need [week] to be a mapping. Another
    value (a truthy one: a falsy one was replaced by the empty mapping)
    stops the function: an integer or a boolean at [d in week], a sequence
    or a text at [week.keys()]. *)
Definition week_dict (week : value) : result dict :=
  match week with
  | VDict w => Ok w
  | VList _ | VStr _ => Raise AttributeError
  | _ => Raise TypeError
  end.

(** The escaped [name] and [semester] of a document. *)
Definition doc_name (d : dict) : str :=
  _escape (dict_get d (KStr (q "name")) (VStr (q "Schedule"))).

Definition doc_semester (d : dict) : str :=
  _escape (dict_get d (KStr (q "semester")) (VStr [])).

(** [days_html]: the joined sections of the days of [week]. *)
Definition doc_days_html (week : value) : result str :=
  w <- week_dict week ;;
  let present := order_days w in
  parts <- days_html_parts w present ;;
  Ok (join NL parts).

(** The full HTML page of a parsed document. *)
Definition generate_html (doc : value) : result str :=
  d <- as_dict doc ;;
  let name := doc_name d in
  let semester := doc_semester d in
  let week := py_or (dict_get d (KStr (q "week")) (VDict [])) (VDict []) in
  days_html <- doc_days_html week ;;
  Ok (assemble name semester days_html).

(* ===================================================================== *)
(** ** Files, streams and the entry point *)
(* ===================================================================== *)

Inductive node :=
| Directory
| TextFile (content : str)
(** A file whose opening or reading raises. *)
| Unreadable (e : exn).

(** What the program asks of its environment, in the order it asks. *)
Inductive event :=
| EvExists (p : str)
| EvOpenRead (p : str)
| EvSafeLoad
| EvWriteText (p : str)
| EvPrint.

Inductive err_line :=
| Message (text : str)
| Traceback (e : exn).

Record world := {
  files : list (str * node);
  (** What opening a file for writing raises here, if anything. *)
  write_denied : option exn;
  stdout : list str;
  stderr : list err_line;
  events : list event
}.

Fixpoint find_node (fs : list (str * node)) (p : str) : option node :=
  match fs with
  | [] => None
  | (p', n) :: fs' => if str_eqb p' p then Some n else find_node fs' p
  end.

Fixpoint set_node (fs : list (str * node)) (p : str) (n : node) : list (str * node) :=
  match fs with
  | [] => [(p, n)]
  | (p', n') :: fs' =>
      if str_eqb p' p then (p, n) :: fs' else (p', n') :: set_node fs' p n
  end.

Definition log (e : event) (w : world) : world :=
  {| files := files w; write_denied := write_denied w; stdout := stdout w;
     stderr := stderr w; events := events w ++ [e] |}.

Definition with_files (fs : list (str * node)) (w : world) : world :=
  {| files := fs; write_denied := write_denied w; stdout := stdout w;
     stderr := stderr w; events := events w |}.

Definition print (line : str) (w : world) : world :=
  {| files := files w; write_denied := write_denied w;
     stdout := stdout w ++ [line];
     stderr := stderr w; events := events w ++ [EvPrint] |}.

Definition eprint (l : err_line) (w : world) : world :=
  {| files := files w; write_denied := write_denied w; stdout := stdout w;
     stderr := stderr w ++ [l]; events := events w |}.

Definition IN_FILE : str := q "terrible.yaml".
Definition OUT_FILE : str := q "index.html".

(** [path.exists()]. *)
Definition path_exists (path : str) (w : world) : bool * world :=
  (match find_node (files w) path with Some _ => true | None => false end,
   log (EvExists path) w).

(** [load_yaml(path)]: open, [yaml.safe_load(f) or {}]. *)
Definition load_yaml (path : str) (w : world) : result value * world :=
  let w := log (EvOpenRead path) w in
  match find_node (files w) path with
  | None => (Raise FileNotFoundError, w)
  | Some Directory => (Raise IsADirectoryError, w)
  | Some (Unreadable e) => (Raise e, w)
  | Some (TextFile text) =>
      let w := log EvSafeLoad w in
      match safe_load rt text with
      | Raise e => (Raise e, w)
      | Ok v => (Ok (py_or v (VDict [])), w)
      end
  end.

(** A code point that UTF-8 encodes: any but a surrogate (a Python text
    holds nothing above U+10FFFF). *)
Definition utf8_char (c : N) : bool :=
  (c <? 55296)%N || ((57343 <? c)%N && (c <=? 1114111)%N).

Definition utf8_encodable (s : str) : bool := forallb utf8_char s.

(** [path.write_text(content, encoding="utf-8")]: the file is opened for
    writing, which empties or creates it, then the text is encoded and
    written; a text that holds a surrogate cannot be encoded, and the
    file stays empty. *)
Definition write_text (path content : str) (w : world) : result unit * world :=
  let w := log (EvWriteText path) w in
  match find_node (files w) path with
  | Some Directory => (Raise IsADirectoryError, w)
  | _ =>
      match write_denied w with
      | Some e => (Raise e, w)
      | None =>
          if utf8_encodable content
          then (Ok tt, with_files (set_node (files w) path (TextFile content)) w)
          else (Raise UnicodeEncodeError,
                with_files (set_node (files w) path (TextFile [])) w)
      end
  end.

(** How a call of [main] ends. *)
Inductive outcome :=
| Returned
| SystemExit (msg : str)
| Uncaught (e : exn).

(** [main()]. *)
Definition main (w : world) : outcome * world :=
  let (found, w) := path_exists IN_FILE w in
  if negb found then (SystemExit (q "Input file not found: " ++ IN_FILE), w)
  else
    let (r, w) := load_yaml IN_FILE w in
    match r with
    | Raise e => (Uncaught e, w)
    | Ok doc =>
        match generate_html doc with
        | Raise e => (Uncaught e, w)
        | Ok page =>
            let (r, w) := write_text OUT_FILE page w in
            match r with
            | Raise e => (Uncaught e, w)
            | Ok _ => (Returned, print (q "Wrote " ++ resolve rt OUT_FILE) w)
            end
        end
    end.

(** The interpreter running the script: exit status 0 when [main] returns;
    a [SystemExit] carrying a message prints it on the error stream and
    exits with status 1, as an exception nobody caught does after its
    traceback. *)
Definition run_script (w : world) : Z * world :=
  let (o, w) := main w in
  match o with
  | Returned => (0%Z, w)
  | SystemExit msg => (1%Z, eprint (Message msg) w)
  | Uncaught e => (1%Z, eprint (Traceback e) w)
  end.

End Program.

(* ===================================================================== *)
(** ** The vocabulary of the properties *)
(* ===================================================================== *)

(** *** Escaped text *)

(** The five characters HTML gives a meaning: [&], [<], [>], the double
    quote and the single quote. *)
Definition special (c : N) : bool :=
  N.eqb c 38 || N.eqb c 60 || N.eqb c 62 || N.eqb c 34 || N.eqb c 39.

(** What the five replacements make of one character. *)
Definition escape_char (c : N) : str :=
  if N.eqb c 38 then q "&amp;"
  else if N.eqb c 60 then q "&lt;"
  else if N.eqb c 62 then q "&gt;"
  else if N.eqb c 34 then q "&quot;"
  else if N.eqb c 39 then q "&#x27;"
  else [c].

(** The five entities the escaper writes. *)
Definition entities : list str :=
  [q "&amp;"; q "&lt;"; q "&gt;"; q "&quot;"; q "&#x27;"].

(** A piece of escaped text: one character that is not special, or one
    whole entity. *)
Definition escaped_piece (t : str) : Prop :=
  (exists c, t = [c] /\ special c = false) \/ In t entities.

(** No raw special character: the text is made of such pieces only, so
    a special character stands in it as part of an entity or not at all. *)
Definition no_raw_special (s : str) : Prop :=
  exists pieces, Forall escaped_piece pieces /\ s = List.concat pieces.

(** *** Closed examples *)

(** The closed examples of this file run on ASCII scalars and on the empty
    document, where the interpreter's tables are not consulted: code points
    above ASCII are left as they are, the empty text loads as [None] (as
    PyYAML does) and any other text is refused. *)
Definition example_runtime : Runtime := {|
  str_of_container := fun _ => [];
  title_nonascii := fun c => [c];
  lower_nonascii := fun _ _ c => [c];
  safe_load := fun text =>
    match text with
    | [] => Ok VNone
    | _ :: _ => Raise (OtherError (q "YAMLError"))
    end;
  resolve := fun p => q "/home/user/" ++ p
|}.

(** A runtime whose loader returns a document with a lone surrogate in
    its name, as PyYAML does for the escape of U+D800 in a quoted scalar. *)
Definition surrogate_runtime : Runtime := {|
  str_of_container := fun _ => [];
  title_nonascii := fun c => [c];
  lower_nonascii := fun _ _ c => [c];
  safe_load := fun _ => Ok (VDict [(KStr (q "name"), VStr [55296%N])]);
  resolve := fun p => q "/home/user/" ++ p
|}.

(** *** Slots and days *)

(** The time column in the words of the rule: the dash when start and end
    are both empty, otherwise the start, a space, the em-dash, a space and
    the end. *)
Definition time_column (start end_ : str) : str :=
  match start, end_ with
  | [], [] => EM_DASH
  | _, _ => start ++ q " " ++ EM_DASH ++ q " " ++ end_
  end.

(** The title in the words of the rule: the escaped [name], [Schedule]
    when the document has no such key. *)
Definition doc_title (rt : Runtime) (d : dict) : str :=
  match lookup d (KStr (q "name")) with
  | None => q "Schedule"
  | Some v => _escape rt v
  end.

(** The subtitle: the escaped [semester], empty when the document has no
    such key. *)
Definition doc_subtitle (rt : Runtime) (d : dict) : str :=
  match lookup d (KStr (q "semester")) with
  | None => []
  | Some v => _escape rt v
  end.

(** [s] ends with [sfx]. *)
Definition ends_with (sfx s : str) : bool := starts (rev sfx) (rev s).

(** A text or a null: what a hand-written [time] holds. *)
Definition text_or_none (v : value) : bool :=
  match v with
  | VNone | VStr _ => true
  | _ => false
  end.

(** The conventional days that are keys of the week, in their fixed order. *)
Definition canonical_present (week : dict) : list key :=
  map KStr (filter (fun d => dict_mem week (KStr d)) day_order).

(** The key is one of the seven conventional days. *)
Definition is_canonical (k : key) : bool := key_in k (map KStr day_order).

(** The other keys of the week, in insertion order. *)
Definition extra_keys (week : dict) : list key :=
  filter (fun k => negb (is_canonical k)) (keys week).

(** A day has slots when [week.get(day, []) or []] is not empty. *)
Definition has_slots (week : dict) (day : key) : bool := truthy (day_slots week day).

(** The section the third loop emits for a day that has slots. *)
Definition section_of (rt : Runtime) (week : dict) (day : key) : result str :=
  day_section rt day (day_slots week day).

Definition is_ascii (c : N) : bool := (c <? 128)%N.

(** *** The skeleton as a form *)

(** The text before the first occurrence of [tok], and the text after it. *)
Fixpoint cut (tok s : str) : str * str :=
  match s with
  | [] => ([], [])
  | c :: s' =>
      if starts tok s then ([], skipn (List.length tok) s)
      else let (a, b) := cut tok s' in (c :: a, b)
  end.

(** The skeleton read as a form: six fixed fragments around the five
    places where a placeholder stands. *)
Definition frag0 : str := Eval vm_compute in fst (cut NAME_TOKEN template).
Definition rest0 : str := Eval vm_compute in snd (cut NAME_TOKEN template).
Definition frag1 : str := Eval vm_compute in fst (cut SEM_TOKEN rest0).
Definition rest1 : str := Eval vm_compute in snd (cut SEM_TOKEN rest0).
Definition frag2 : str := Eval vm_compute in fst (cut NAME_TOKEN rest1).
Definition rest2 : str := Eval vm_compute in snd (cut NAME_TOKEN rest1).
Definition frag3 : str := Eval vm_compute in fst (cut SEM_TOKEN rest2).
Definition rest3 : str := Eval vm_compute in snd (cut SEM_TOKEN rest2).
Definition frag4 : str := Eval vm_compute in fst (cut DAYS_TOKEN rest3).
Definition frag5 : str := Eval vm_compute in snd (cut DAYS_TOKEN rest3).

(** The skeleton with its three substitutions made at once: the document
    title and the heading filled with the name, the title's parenthesis
    and the subtitle with the semester, the main region with the days. *)
Definition intended_page (name semester days_html : str) : str :=
  frag0 ++ name ++ frag1 ++ semester ++ frag2 ++ name ++ frag3 ++ semester
  ++ frag4 ++ days_html ++ frag5.

(** No character of [a] is the first character of [tok]. *)
Definition plain_for (tok a : str) : bool :=
  match tok with
  | [] => false
  | t :: _ => negb (existsb (N.eqb t) a)
  end.

(** [next] begins with a character that [tok] does not hold. *)
Definition guards (tok next : str) : bool :=
  match next with
  | [] => false
  | c :: _ => negb (existsb (N.eqb c) tok)
  end.

(** The pattern is not empty. *)
Definition nonempty (s : str) : bool :=
  match s with [] => false | _ :: _ => true end.

(** *** Markup and documents of the usual shape *)

(** How many times a character stands in a text. *)
Definition count_char (c : N) (s : str) : nat := count_occ N.eq_dec s c.

(** Nothing, or a list: what [attendees] and [time] hold in a document
    written as the file format intends. *)
Definition falsy_or_list (v : value) : bool :=
  negb (truthy v) || isinstance_list v.

(** A lecture: a mapping whose [attendees], if any, are a list. *)
Definition wf_lecture (v : value) : bool :=
  match v with
  | VDict d => falsy_or_list (dict_get d (KStr (q "attendees")) (VList []))
  | _ => false
  end.

(** Nothing, or a list of lectures. *)
Definition wf_lectures (v : value) : bool :=
  negb (truthy v) ||
  match v with
  | VList ls => forallb wf_lecture ls
  | _ => false
  end.

(** A slot: a mapping whose [time], if any, is a list and whose
    [lectures], if any, are a list of lectures. *)
Definition wf_slot (v : value) : bool :=
  match v with
  | VDict d =>
      falsy_or_list (dict_get d (KStr (q "time")) (VList []))
      && wf_lectures (dict_get d (KStr (q "lectures")) (VList []))
  | _ => false
  end.

(** Nothing, or a list of slots. *)
Definition wf_slots (v : value) : bool :=
  negb (truthy v) ||
  match v with
  | VList ss => forallb wf_slot ss
  | _ => false
  end.

Definition is_text_key (k : key) : bool :=
  match k with KStr _ => true | _ => false end.

(** Nothing, or a mapping from text keys to slot lists. *)
Definition wf_week (v : value) : bool :=
  negb (truthy v) ||
  match v with
  | VDict w => forallb (fun kv => is_text_key (fst kv) && wf_slots (snd kv)) w
  | _ => false
  end.

(** A document of the usual shape: whatever its [name] and [semester],
    its [week] is as above. *)
Definition wf_doc (d : dict) : bool :=
  wf_week (dict_get d (KStr (q "week")) (VDict [])).

(** The block of a lecture, from the two texts it holds. *)
Definition lecture_markup (title attendees_html : str) : str :=
  q "<div class=`lecture`>"
  ++ q "  <div class=`title`>" ++ title ++ q "</div>"
  ++ q "  <div class=`attendees`>" ++ attendees_html ++ q "</div>"
  ++ q "</div>".

(** *** The angle brackets of the markup *)

(** The pairs of angle brackets in the block of a lecture: six for the
    block, two for each attendee of its list. *)
Definition lecture_brackets (v : value) : nat :=
  match v with
  | VDict d => 6 + 2 * len_list (dict_get d (KStr (q "attendees")) (VList []))
  | _ => 0
  end.

(** The elements of a list; nothing for another value. *)
Definition items_of (v : value) : list value :=
  match v with VList l => l | _ => [] end.

(** In a slot: six, and those of its lectures. *)
Definition slot_brackets (v : value) : nat :=
  match v with
  | VDict d =>
      6 + list_sum (map lecture_brackets
                      (items_of (dict_get d (KStr (q "lectures")) (VList []))))
  | _ => 0
  end.

(** In the section of a day: eight, and those of its slots. *)
Definition day_brackets (week : dict) (day : key) : nat :=
  8 + list_sum (map slot_brackets (items_of (day_slots week day))).

(** In the sections of a week: those of its days that have slots. *)
Definition week_brackets (week : dict) : nat :=
  list_sum (map (day_brackets week) (filter (has_slots week) (order_days week))).

(** An opening or a closing angle bracket. *)
Definition bracket (c : N) : Prop := c = 60%N \/ c = 62%N.

(** No upper-case ASCII letter. *)
Definition no_upper (s : str) : bool :=
  forallb (fun c => negb ((65 <=? c)%N && (c <=? 90)%N)) s.

(* ===================================================================== *)
(** ** Facts about text *)
(* ===================================================================== *)

Lemma starts_refl_app (p rest : str) : starts p (p ++ rest) = true.
Proof.
  induction p as [|a p IH]; simpl; [reflexivity|].
  now rewrite N.eqb_refl, IH.
Qed.

Lemma starts_head (p s : str) (a b : N) :
  starts (a :: p) (b :: s) = true -> a = b.
Proof.
  simpl. intros H. apply andb_prop in H. now apply N.eqb_eq.
Qed.

(** Passing over the rest of a match. *)
Lemma replace_from_skip (old new a rest : str) :
  replace_from old new (List.length a) (a ++ rest) = replace_from old new 0 rest.
Proof.
  induction a as [|c a IH]; simpl; [|exact IH].
  destruct rest; reflexivity.
Qed.

(** An occurrence at the head is replaced, and the scan goes on after it. *)
Lemma replace_from_match (old new rest : str) :
  old <> [] ->
  replace_from old new 0 (old ++ rest) = new ++ replace_from old new 0 rest.
Proof.
  destruct old as [|c old]; [congruence|]. intros _.
  change ((c :: old) ++ rest) with (c :: (old ++ rest)).
  cbn [replace_from].
  change (c :: old ++ rest) with ((c :: old) ++ rest).
  rewrite starts_refl_app.
  replace (List.length (c :: old) - 1) with (List.length old) by (simpl; lia).
  now rewrite replace_from_skip.
Qed.

(** A stretch in which no occurrence begins is copied. *)
Lemma replace_from_copy (old new a rest : str) :
  (forall a1 a2, a = a1 ++ a2 -> a2 <> [] -> starts old (a2 ++ rest) = false) ->
  replace_from old new 0 (a ++ rest) = a ++ replace_from old new 0 rest.
Proof.
  induction a as [|c a IH]; intros H; [reflexivity|].
  change ((c :: a) ++ rest) with (c :: (a ++ rest)).
  cbn [replace_from].
  change (c :: a ++ rest) with ((c :: a) ++ rest).
  rewrite (H [] (c :: a)) by (reflexivity || discriminate).
  cbn [app]. f_equal. apply IH.
  intros a1 a2 E N. apply (H (c :: a1) a2); [now rewrite E|exact N].
Qed.

(** Replacing a one-character pattern is a character-wise map. *)
Lemma replace_from_char (c : N) (new s : str) :
  replace_from [c] new 0 s = flat_map (fun x => if N.eqb c x then new else [x]) s.
Proof.
  induction s as [|x s IH]; [reflexivity|].
  cbn [replace_from starts flat_map List.length].
  rewrite andb_true_r. cbn [Nat.sub].
  destruct (N.eqb c x); rewrite IH; reflexivity.
Qed.

Lemma flat_map_flat_map {A B C} (f : A -> list B) (g : B -> list C) (l : list A) :
  flat_map g (flat_map f l) = flat_map (fun x => flat_map g (f x)) l.
Proof.
  induction l as [|a l IH]; [reflexivity|].
  cbn [flat_map]. now rewrite flat_map_app, IH.
Qed.

(** *** The escaper, character by character *)

Lemma html_escape_flat_map (s : str) :
  html_escape s = flat_map escape_char s.
Proof.
  unfold html_escape, str_replace. cbn [q map list_ascii_of_string].
  rewrite !replace_from_char, !flat_map_flat_map.
  apply flat_map_ext. intros x. unfold escape_char.
  change (q_char "&") with 38%N. change (q_char "<") with 60%N.
  change (q_char ">") with 62%N. change (q_char "`") with 34%N.
  change (q_char "'") with 39%N.
  rewrite (N.eqb_sym x 38), (N.eqb_sym x 60), (N.eqb_sym x 62),
    (N.eqb_sym x 34), (N.eqb_sym x 39).
  destruct (N.eqb 38 x) eqn:E1; [reflexivity|].
  cbn [flat_map app]. destruct (N.eqb 60 x) eqn:E2; [reflexivity|].
  cbn [flat_map app]. destruct (N.eqb 62 x) eqn:E3; [reflexivity|].
  cbn [flat_map app]. destruct (N.eqb 34 x) eqn:E4; [reflexivity|].
  cbn [flat_map app]. destruct (N.eqb 39 x) eqn:E5; reflexivity.
Qed.

Lemma escape_char_piece (c : N) : escaped_piece (escape_char c).
Proof.
  unfold escaped_piece, escape_char, entities.
  destruct (N.eqb c 38) eqn:E1; [right; simpl; tauto|].
  destruct (N.eqb c 60) eqn:E2; [right; simpl; tauto|].
  destruct (N.eqb c 62) eqn:E3; [right; simpl; tauto|].
  destruct (N.eqb c 34) eqn:E4; [right; simpl; tauto|].
  destruct (N.eqb c 39) eqn:E5; [right; simpl; tauto|].
  left. exists c. split; [reflexivity|]. unfold special.
  now rewrite E1, E2, E3, E4, E5.
Qed.

Lemma html_escape_no_raw (s : str) : no_raw_special (html_escape s).
Proof.
  exists (map escape_char s). split.
  - apply Forall_forall. intros t Ht. apply in_map_iff in Ht.
    destruct Ht as [c [<- _]]. apply escape_char_piece.
  - rewrite html_escape_flat_map. apply flat_map_concat_map.
Qed.

(** The four characters other than the ampersand never stand in escaped
    text; an ampersand does, as the head of an entity. *)
Lemma html_escape_chars (s : str) (c : N) :
  In c (html_escape s) ->
  c <> 60%N /\ c <> 62%N /\ c <> 34%N /\ c <> 39%N.
Proof.
  rewrite html_escape_flat_map. intros H. apply in_flat_map in H.
  destruct H as [x [_ H]]. unfold escape_char in H.
  repeat match type of H with
         | In _ (if ?b then _ else _) => destruct b eqn:?
         end;
    try (simpl in H;
         repeat (destruct H as [<-|H]; [repeat split; discriminate|]);
         contradiction).
  destruct H as [<-|[]].
  repeat match goal with E : N.eqb _ _ = false |- _ => apply N.eqb_neq in E end.
  tauto.
Qed.

Lemma html_escape_plain (s : str) :
  forallb (fun c => negb (special c)) s = true -> html_escape s = s.
Proof.
  rewrite html_escape_flat_map.
  induction s as [|c s IH]; [reflexivity|].
  cbn [forallb flat_map]. intros H. apply andb_prop in H. destruct H as [Hc Hs].
  rewrite (IH Hs). unfold special in Hc. unfold escape_char.
  apply negb_true_iff in Hc.
  repeat (apply orb_false_elim in Hc; destruct Hc as [Hc ?]).
  repeat match goal with E : N.eqb _ _ = false |- _ => rewrite E; clear E end.
  reflexivity.
Qed.

(* ===================================================================== *)
(** ** The escaper *)
(* ===================================================================== *)

(** C7. [_escape] is a total function on values. It maps [None] to the
    empty text; whatever the value, its result holds no raw special
    character: it is made of characters other than the five special ones
    and of whole entities, so that an ampersand only ever opens an entity,
    and the angle brackets and the two quotes do not stand in it at all; a
    text without special characters comes back unchanged. *)
Theorem escape_none_safe_plain (rt : Runtime) :
  _escape rt VNone = [] /\
  (forall v, no_raw_special (_escape rt v)) /\
  (forall v c, In c (_escape rt v) ->
     c <> 60%N /\ c <> 62%N /\ c <> 34%N /\ c <> 39%N) /\
  (forall s, forallb (fun c => negb (special c)) s = true ->
     _escape rt (VStr s) = s).
Proof.
  split; [reflexivity|]. split; [|split].
  - intros v. unfold _escape. apply html_escape_no_raw.
  - intros v c. unfold _escape. apply html_escape_chars.
  - intros s Hs. unfold _escape. cbn [py_str]. now apply html_escape_plain.
Qed.

Lemma escape_none_safe_plain_witness :
  _escape example_runtime (VStr (q "Intro to CS")) = q "Intro to CS".
Proof.
  apply (proj2 (proj2 (proj2 (escape_none_safe_plain example_runtime)))).
  reflexivity.
Defined.

(* ===================================================================== *)
(** ** Slots *)
(* ===================================================================== *)

Lemma render_slot_unfold (rt : Runtime) (d : dict) :
  render_slot rt (VDict d) =
  (se <- slot_start_end (dict_get d (KStr (q "time")) (VList [])) ;;
   lectures_html <- slot_lectures_html rt d ;;
   Ok (slot_markup (time_str rt (fst se) (snd se)) lectures_html)).
Proof. reflexivity. Qed.

Lemma time_str_not_dash (rt : Runtime) (start end_ : value) :
  truthy start || truthy end_ = true -> time_str rt start end_ <> EM_DASH.
Proof.
  intros H. unfold time_str. rewrite H. unfold EM_DASH.
  destruct (_escape rt start) as [|c [|c' s]]; cbn; discriminate.
Qed.

Lemma html_escape_nil (s : str) : html_escape s = [] <-> s = [].
Proof.
  rewrite html_escape_flat_map. split; [|now intros ->].
  destruct s as [|c s]; [reflexivity|]. cbn [flat_map]. unfold escape_char.
  repeat match goal with |- context [if ?b then _ else _] => destruct b end;
    discriminate.
Qed.

Lemma truthy_text_escape (rt : Runtime) (v : value) :
  text_or_none v = true -> (truthy v = false <-> _escape rt v = []).
Proof.
  destruct v as [| | |s| |]; try discriminate; intros _; unfold _escape; cbn [py_str truthy].
  - split; reflexivity.
  - rewrite html_escape_nil. destruct s; split; congruence.
Qed.

Lemma time_str_dash_iff (rt : Runtime) (start end_ : value) :
  time_str rt start end_ = EM_DASH <-> truthy start = false /\ truthy end_ = false.
Proof.
  split.
  - intros H. destruct (truthy start || truthy end_) eqn:E.
    + exfalso. exact (time_str_not_dash rt start end_ E H).
    + now apply orb_false_elim in E.
  - intros [H1 H2]. unfold time_str. now rewrite H1, H2.
Qed.

Lemma time_str_column (rt : Runtime) (start end_ : value) :
  text_or_none start = true -> text_or_none end_ = true ->
  time_str rt start end_ = time_column (_escape rt start) (_escape rt end_).
Proof.
  intros Hs He. unfold time_str, time_column.
  pose proof (truthy_text_escape rt start Hs) as Ts.
  pose proof (truthy_text_escape rt end_ He) as Te.
  destruct (_escape rt start) as [|c s]; destruct (_escape rt end_) as [|c' e];
    destruct (truthy start); destruct (truthy end_); cbn [orb];
    try reflexivity;
    try (destruct Ts as [Ts _]; now specialize (Ts eq_refl));
    try (destruct Te as [Te _]; now specialize (Te eq_refl));
    try (destruct Ts as [_ Ts]; now specialize (Ts eq_refl));
    try (destruct Te as [_ Te]; now specialize (Te eq_refl)).
Qed.

(** C2, as the code has it. For every slot (a mapping), whatever its
    lectures: when [time] is missing or falsy the time column is the dash
    (start and end are empty); when it is a list of one text, that text
    is the start and the end is empty; when it is a longer list, its
    first two texts are start and end. The time column is then the dash
    exactly when start and end are both empty once escaped, and
    otherwise the escaped start, a space, the em-dash, a space and the
    escaped end. For [time: ["09:00"]] that is the text [09:00], space,
    em-dash, space: the space after the dash is there. *)
Theorem render_slot_time_rule (rt : Runtime) (d : dict) :
  (lookup d (KStr (q "time")) = None ->
     render_slot rt (VDict d) =
     (lh <- slot_lectures_html rt d ;; Ok (slot_markup (time_column [] []) lh))) /\
  (forall t,
     lookup d (KStr (q "time")) = Some t -> truthy t = false ->
     render_slot rt (VDict d) =
     (lh <- slot_lectures_html rt d ;; Ok (slot_markup (time_column [] []) lh))) /\
  (forall x,
     lookup d (KStr (q "time")) = Some (VList [x]) -> text_or_none x = true ->
     render_slot rt (VDict d) =
     (lh <- slot_lectures_html rt d ;;
      Ok (slot_markup (time_column (_escape rt x) []) lh))) /\
  (forall a b rest,
     lookup d (KStr (q "time")) = Some (VList (a :: b :: rest)) ->
     text_or_none a = true -> text_or_none b = true ->
     render_slot rt (VDict d) =
     (lh <- slot_lectures_html rt d ;;
      Ok (slot_markup (time_column (_escape rt a) (_escape rt b)) lh))) /\
  (forall s e, time_column s e = EM_DASH <-> s = [] /\ e = []) /\
  (forall s e, s <> [] \/ e <> [] ->
     time_column s e = s ++ q " " ++ EM_DASH ++ q " " ++ e) /\
  (lookup d (KStr (q "time")) = Some (VList [VStr (q "09:00")]) ->
     render_slot rt (VDict d) =
     (lh <- slot_lectures_html rt d ;;
      Ok (slot_markup (q "09:00 " ++ EM_DASH ++ q " ") lh))).
Proof.
  assert (Hfalsy : forall t, truthy t = false ->
            slot_start_end t = Ok (VStr [], VStr [])).
  { intros t H. unfold slot_start_end.
    destruct t as [| | | |l|]; cbn in H |- *; try rewrite H; try reflexivity.
    destruct l; [reflexivity|discriminate]. }
  split.
  { intros H. rewrite render_slot_unfold. unfold dict_get. rewrite H.
    reflexivity. }
  split.
  { intros t H Ht. rewrite render_slot_unfold. unfold dict_get.
    rewrite H, (Hfalsy t Ht). reflexivity. }
  split.
  { intros x H Hx. rewrite render_slot_unfold. unfold dict_get. rewrite H.
    cbn [slot_start_end isinstance_list len_list List.length negb orb Nat.ltb
         Nat.leb truthy getitem nth_error bind fst snd].
    now rewrite (time_str_column rt x (VStr []) Hx eq_refl). }
  split.
  { intros a b rest H Ha Hb. rewrite render_slot_unfold. unfold dict_get.
    rewrite H.
    change (slot_start_end (VList (a :: b :: rest))) with (Ok (a, b)).
    cbn [bind fst snd]. now rewrite (time_str_column rt a b Ha Hb). }
  split.
  { intros s e. unfold time_column, EM_DASH.
    destruct s as [|c s]; destruct e as [|c' e]; cbn [app];
      split; try tauto; try (intros [? ?]; discriminate).
    - intros H. discriminate H.
    - destruct s as [|? ?]; intros H; discriminate H.
    - destruct s as [|? ?]; intros H; discriminate H. }
  split.
  { intros s e H. unfold time_column.
    destruct s; destruct e; try reflexivity. destruct H; congruence. }
  intros H. rewrite render_slot_unfold. unfold dict_get. rewrite H. reflexivity.
Qed.

Lemma render_slot_time_rule_witness :
  render_slot example_runtime
    (VDict [(KStr (q "time"), VList [VStr (q "09:00")])])
  = Ok (slot_markup (q "09:00 " ++ EM_DASH ++ q " ") []).
Proof.
  apply (proj2 (proj2 (proj2 (proj2 (proj2 (proj2
           (render_slot_time_rule example_runtime
              [(KStr (q "time"), VList [VStr (q "09:00")])]))))))).
  reflexivity.
Defined.

(** C2 as worded fails: for [time: ["09:00"]] the time column is not the
    text that ends at the em-dash; a space follows it. *)
Lemma render_slot_time_trailing_space :
  render_slot example_runtime
    (VDict [(KStr (q "time"), VList [VStr (q "09:00")])])
  <> Ok (slot_markup (q "09:00 " ++ EM_DASH) []).
Proof. vm_compute. discriminate. Qed.

(** C9. A [time] that is a truthy scalar without subscript (a non-zero
    integer, [True]) makes [render_slot] raise: the first branch is taken,
    the value is truthy, and indexing it is a [TypeError]; the empty
    defaults are not used. So it is for [time: 930]. *)
Theorem render_slot_scalar_time_raises (rt : Runtime) (d : dict) (t : value) :
  lookup d (KStr (q "time")) = Some t ->
  t = VBool true \/ (exists z, t = VInt z /\ z <> 0%Z) ->
  getitem t 0 = Raise TypeError /\
  slot_start_end t = Raise TypeError /\
  render_slot rt (VDict d) = Raise TypeError.
Proof.
  intros Hd Ht.
  assert (Hse : slot_start_end t = Raise TypeError).
  { destruct Ht as [-> | [z [-> Hz]]]; [reflexivity|].
    unfold slot_start_end. cbn. apply Z.eqb_neq in Hz. now rewrite Hz. }
  split; [destruct Ht as [-> | [z [-> _]]]; reflexivity|].
  split; [exact Hse|].
  rewrite render_slot_unfold. unfold dict_get. rewrite Hd, Hse. reflexivity.
Qed.

Lemma render_slot_scalar_time_raises_witness :
  render_slot example_runtime (VDict [(KStr (q "time"), VInt 930)])
  = Raise TypeError.
Proof.
  apply (render_slot_scalar_time_raises example_runtime
           [(KStr (q "time"), VInt 930)] (VInt 930)).
  - reflexivity.
  - right. exists 930%Z. split; [reflexivity | lia].
Defined.

(** C10. A [time] that is a non-empty text is indexed like a sequence:
    the start is its first character alone, the end is empty, and the time
    column shows that character, escaped, before the dash. For
    [time: "09:00"] the start shown is [0]. *)
Theorem render_slot_text_time_first_char
  (rt : Runtime) (d : dict) (c : N) (s : str) :
  lookup d (KStr (q "time")) = Some (VStr (c :: s)) ->
  slot_start_end (VStr (c :: s)) = Ok (VStr [c], VStr []) /\
  time_str rt (VStr [c]) (VStr []) = html_escape [c] ++ q " " ++ EM_DASH ++ q " " /\
  render_slot rt (VDict d) =
    (lectures_html <- slot_lectures_html rt d ;;
     Ok (slot_markup (html_escape [c] ++ q " " ++ EM_DASH ++ q " ") lectures_html)).
Proof.
  intros Hd.
  assert (Ht : time_str rt (VStr [c]) (VStr [])
               = html_escape [c] ++ q " " ++ EM_DASH ++ q " ").
  { unfold time_str, _escape. cbn [truthy orb py_str].
    change (html_escape []) with (@nil N). now rewrite !app_nil_r. }
  split; [reflexivity|]. split; [exact Ht|].
  rewrite render_slot_unfold. unfold dict_get. rewrite Hd.
  change (slot_start_end (VStr (c :: s))) with (Ok (VStr [c], VStr [])).
  cbn [bind fst snd]. now rewrite Ht.
Qed.

Lemma render_slot_text_time_first_char_witness :
  render_slot example_runtime (VDict [(KStr (q "time"), VStr (q "09:00"))])
  = Ok (slot_markup (q "0 " ++ EM_DASH ++ q " ") []).
Proof.
  exact (proj2 (proj2 (render_slot_text_time_first_char example_runtime
           [(KStr (q "time"), VStr (q "09:00"))] 48%N (q "9:00") eq_refl))).
Defined.

(* ===================================================================== *)
(** ** Keys and mappings *)
(* ===================================================================== *)

Lemma str_eqb_eq (a b : str) : str_eqb a b = true <-> a = b.
Proof.
  unfold str_eqb. destruct (list_eq_dec N.eq_dec a b); split; congruence.
Qed.

Lemma key_eqb_norm (a b : key) : key_eqb a b = true <-> key_norm a = key_norm b.
Proof.
  unfold key_eqb.
  destruct a as [|[]|x|s], b as [|[]|y|t]; cbn [key_norm];
    try rewrite Z.eqb_eq; try rewrite str_eqb_eq;
    split; intros H; try discriminate; try congruence; try reflexivity.
Qed.

Lemma key_eqb_refl (a : key) : key_eqb a a = true.
Proof. now apply key_eqb_norm. Qed.

Lemma key_eqb_sym (a b : key) : key_eqb a b = key_eqb b a.
Proof.
  destruct (key_eqb a b) eqn:E, (key_eqb b a) eqn:F; try reflexivity.
  - apply key_eqb_norm in E. symmetry in E. apply key_eqb_norm in E. congruence.
  - apply key_eqb_norm in F. symmetry in F. apply key_eqb_norm in F. congruence.
Qed.

Lemma key_eqb_trans (a b c : key) :
  key_eqb a b = true -> key_eqb b c = true -> key_eqb a c = true.
Proof. rewrite !key_eqb_norm. congruence. Qed.

(** Equal keys cannot be told apart by [==]. *)
Lemma key_eqb_congr (a b c : key) :
  key_eqb a b = true -> key_eqb a c = key_eqb b c.
Proof.
  intros H. destruct (key_eqb b c) eqn:E.
  - now apply key_eqb_trans with b.
  - destruct (key_eqb a c) eqn:F; [|reflexivity].
    rewrite key_eqb_sym in H. now rewrite (key_eqb_trans b a c H F) in E.
Qed.

(** Only the same text equals a text key. *)
Lemma key_eqb_str (k : key) (s : str) : key_eqb k (KStr s) = true -> k = KStr s.
Proof.
  intros H. apply key_eqb_norm in H. destruct k as [|[]| |]; simpl in H; congruence.
Qed.

Lemma key_in_spec (k : key) (ks : list key) :
  key_in k ks = true <-> exists k', In k' ks /\ key_eqb k' k = true.
Proof.
  induction ks as [|x ks IH]; simpl.
  - split; [discriminate | intros [? [[] _]]].
  - rewrite orb_true_iff, IH. split.
    + intros [H | [k' [H1 H2]]]; [exists x | exists k']; auto.
    + intros [k' [[<- | H1] H2]]; [left | right; exists k']; auto.
Qed.

Lemma key_in_app (k : key) (a b : list key) :
  key_in k (a ++ b) = key_in k a || key_in k b.
Proof.
  induction a as [|x a IH]; simpl; [reflexivity|]. now rewrite IH, orb_assoc.
Qed.

Lemma key_in_rev (k : key) (a : list key) : key_in k (rev a) = key_in k a.
Proof.
  induction a as [|x a IH]; simpl; [reflexivity|].
  rewrite key_in_app, IH. simpl. rewrite orb_false_r. apply orb_comm.
Qed.

Lemma key_in_congr (a b : key) (ks : list key) :
  key_eqb a b = true -> key_in a ks = key_in b ks.
Proof.
  intros H. induction ks as [|x ks IH]; simpl; [reflexivity|].
  rewrite IH. f_equal. rewrite (key_eqb_sym x a), (key_eqb_sym x b).
  now apply key_eqb_congr.
Qed.

Lemma dict_mem_keys (d : dict) (k : key) : dict_mem d k = key_in k (keys d).
Proof.
  unfold dict_mem. induction d as [|[k' v] d IH]; simpl; [reflexivity|].
  destruct (key_eqb k' k); [reflexivity | exact IH].
Qed.

(* ===================================================================== *)
(** ** The order of the days *)
(* ===================================================================== *)

Lemma scan_day_order_spec (week : dict) (ds : list str) (present seen : list key) :
  let found := map KStr (filter (fun d => dict_mem week (KStr d)) ds) in
  scan_day_order week ds present seen = (present ++ found, rev found ++ seen).
Proof.
  revert present seen. induction ds as [|d ds IH]; intros present seen; simpl.
  - now rewrite app_nil_r.
  - destruct (dict_mem week (KStr d)); simpl.
    + rewrite IH. simpl. now rewrite <- !app_assoc.
    + apply IH.
Qed.

Lemma scan_keys_spec (ks present seen : list key) :
  keys_unique ks = true ->
  scan_keys ks present seen = present ++ filter (fun k => negb (key_in k seen)) ks.
Proof.
  revert present seen. induction ks as [|k ks IH]; intros present seen U; simpl.
  - now rewrite app_nil_r.
  - simpl in U. apply andb_prop in U. destruct U as [Uk U].
    apply negb_true_iff in Uk.
    destruct (key_in k seen) eqn:E; simpl.
    + now apply IH.
    + rewrite IH by exact U. rewrite <- app_assoc. simpl. do 2 f_equal.
      apply filter_ext_in. intros x Hx. simpl.
      destruct (key_eqb k x) eqn:F; [|reflexivity].
      exfalso. assert (key_in k ks = true); [|congruence].
      apply key_in_spec. exists x. split; [exact Hx|].
      now rewrite key_eqb_sym.
Qed.

Lemma seen_is_canonical (week : dict) (k : key) :
  In k (keys week) ->
  key_in k (rev (canonical_present week) ++ []) = is_canonical k.
Proof.
  intros Hk. rewrite app_nil_r, key_in_rev. unfold canonical_present, is_canonical.
  destruct (key_in k (map KStr day_order)) eqn:E.
  - apply key_in_spec in E. destruct E as [k' [Hin Heq]].
    apply key_in_spec. exists k'. split; [|exact Heq].
    apply in_map_iff in Hin. destruct Hin as [d [<- Hd]].
    apply in_map, filter_In. split; [exact Hd|].
    rewrite dict_mem_keys. apply key_in_spec. exists k. split; [exact Hk|].
    now rewrite key_eqb_sym.
  - destruct (key_in k (map KStr (filter _ day_order))) eqn:F; [|reflexivity].
    apply key_in_spec in F. destruct F as [k' [Hin Heq]].
    assert (key_in k (map KStr day_order) = true); [|congruence].
    apply key_in_spec. exists k'. split; [|exact Heq].
    apply in_map_iff in Hin. destruct Hin as [d [<- Hd]].
    apply in_map. apply filter_In in Hd. tauto.
Qed.

Lemma order_days_canonical_then_extra (week : dict) :
  keys_unique (keys week) = true ->
  order_days week = canonical_present week ++ extra_keys week.
Proof.
  intros U. unfold order_days. rewrite scan_day_order_spec. cbn [fst snd app].
  rewrite scan_keys_spec by exact U. f_equal.
  apply filter_ext_in. intros k Hk. f_equal.
  now apply seen_is_canonical.
Qed.

(** The third loop emits one section for each day that has slots, in the
    order of [present], and nothing for the others. *)
Lemma days_html_parts_filter (rt : Runtime) (week : dict) (present : list key) :
  days_html_parts rt week present =
  mapM (section_of rt week) (filter (has_slots week) present).
Proof.
  induction present as [|day rest IH]; [reflexivity|].
  cbn [days_html_parts filter]. unfold has_slots at 1.
  destruct (truthy (day_slots week day)); cbn [negb mapM].
  - unfold section_of at 1. now rewrite IH.
  - exact IH.
Qed.

Lemma generate_html_unfold (rt : Runtime) (d : dict) :
  generate_html rt (VDict d) =
  (days_html <- doc_days_html rt
     (py_or (dict_get d (KStr (q "week")) (VDict [])) (VDict [])) ;;
   Ok (assemble (doc_name rt d) (doc_semester rt d) days_html)).
Proof. reflexivity. Qed.

(** C3. In a week (a mapping, whose keys are distinct) the days come in
    this order: the conventional days that are keys of the week, Monday to
    Sunday, then every other key in insertion order. The output follows
    that order: the text of the day sections, and with it the main region
    of the page, is the sections of these days that have slots, one after
    the other in that order with a newline between two of them. An empty
    week gives the empty sequence. *)
Theorem day_sections_in_order (rt : Runtime) (week : dict) :
  keys_unique (keys week) = true ->
  order_days week = canonical_present week ++ extra_keys week /\
  doc_days_html rt (VDict week) =
    (parts <- mapM (section_of rt week)
                (filter (has_slots week) (canonical_present week ++ extra_keys week)) ;;
     Ok (join NL parts)) /\
  (forall d,
     lookup d (KStr (q "week")) = Some (VDict week) ->
     generate_html rt (VDict d) =
     (parts <- mapM (section_of rt week)
                 (filter (has_slots week) (canonical_present week ++ extra_keys week)) ;;
      Ok (assemble (doc_name rt d) (doc_semester rt d) (join NL parts)))) /\
  (forall a, join NL [a] = a) /\
  (forall a b rest, join NL (a :: b :: rest) = a ++ NL ++ join NL (b :: rest)) /\
  order_days [] = [].
Proof.
  intros U.
  assert (D : doc_days_html rt (VDict week) =
    (parts <- mapM (section_of rt week)
                (filter (has_slots week) (canonical_present week ++ extra_keys week)) ;;
     Ok (join NL parts))).
  { unfold doc_days_html. cbn [week_dict bind].
    now rewrite days_html_parts_filter, order_days_canonical_then_extra. }
  split; [now apply order_days_canonical_then_extra|].
  split; [exact D|].
  split.
  { intros d H. rewrite generate_html_unfold. unfold dict_get, py_or. rewrite H.
    assert (E : (if truthy (VDict week) then VDict week else VDict []) = VDict week)
      by (destruct week; reflexivity).
    rewrite E, D.
    now destruct (mapM (section_of rt week)
                    (filter (has_slots week)
                       (canonical_present week ++ extra_keys week))). }
  repeat split; reflexivity.
Qed.

Lemma day_sections_in_order_witness :
  doc_days_html example_runtime
    (VDict [(KStr (q "extra"), VList [VDict []]); (KStr (q "sunday"), VNone);
            (KInt 3, VNone); (KStr (q "monday"), VList [VDict []])])
  = Ok (section_markup (q "Monday") (slot_markup EM_DASH [])
        ++ NL ++ section_markup (q "Extra") (slot_markup EM_DASH [])).
Proof.
  exact (proj1 (proj2 (day_sections_in_order example_runtime
    [(KStr (q "extra"), VList [VDict []]); (KStr (q "sunday"), VNone);
     (KInt 3, VNone); (KStr (q "monday"), VList [VDict []])] eq_refl))).
Defined.

(* ===================================================================== *)
(** ** Days without slots *)
(* ===================================================================== *)

Lemma filter_filter_andb {A} (f g : A -> bool) (l : list A) :
  filter f (filter g l) = filter (fun x => g x && f x) l.
Proof.
  induction l as [|a l IH]; [reflexivity|]. simpl.
  destruct (g a); simpl; [destruct (f a)|]; now rewrite IH.
Qed.

Lemma filter_map_pull {A B} (f : B -> bool) (g : A -> B) (l : list A) :
  filter f (map g l) = map g (filter (fun x => f (g x)) l).
Proof.
  induction l as [|a l IH]; [reflexivity|]. simpl.
  destruct (f (g a)); simpl; now rewrite IH.
Qed.

Lemma keys_app (a b : dict) : keys (a ++ b) = keys a ++ keys b.
Proof. apply map_app. Qed.

(** In a list of distinct keys, an entry equals none before or after it. *)
Lemma keys_unique_middle (a b : list key) (k : key) :
  keys_unique (a ++ k :: b) = true ->
  key_in k a = false /\ key_in k b = false /\ keys_unique (a ++ b) = true.
Proof.
  induction a as [|x a IH]; simpl; intros U.
  - apply andb_prop in U. destruct U as [U1 U2].
    apply negb_true_iff in U1. tauto.
  - apply andb_prop in U. destruct U as [U1 U2].
    apply negb_true_iff in U1. rewrite key_in_app in U1. simpl in U1.
    apply orb_false_elim in U1. destruct U1 as [Ua U1].
    apply orb_false_elim in U1. destruct U1 as [Ukx Ub].
    destruct (IH U2) as [H1 [H2 H3]].
    rewrite key_eqb_sym, Ukx, H1, H3, key_in_app, Ua, Ub. auto.
Qed.

Lemma lookup_app (a b : dict) (x : key) :
  lookup (a ++ b) x =
  match lookup a x with Some v => Some v | None => lookup b x end.
Proof.
  induction a as [|[k' v'] a IH]; [reflexivity|]. simpl.
  destruct (key_eqb k' x); [reflexivity | exact IH].
Qed.

Lemma lookup_none_keys (d : dict) (x : key) :
  key_in x (keys d) = false -> lookup d x = None.
Proof.
  rewrite <- dict_mem_keys. unfold dict_mem. now destruct (lookup d x).
Qed.

(** With or without an entry whose slots are falsy, every day has the
    same slots. *)
Lemma day_slots_drop_empty (w1 w2 : dict) (k : key) (v : value) (x : key) :
  keys_unique (keys (w1 ++ (k, v) :: w2)) = true ->
  truthy v = false ->
  day_slots (w1 ++ (k, v) :: w2) x = day_slots (w1 ++ w2) x.
Proof.
  intros U Hv. rewrite keys_app in U. simpl in U.
  destruct (keys_unique_middle _ _ _ U) as [H1 [H2 _]].
  unfold day_slots, dict_get. rewrite !lookup_app. simpl.
  destruct (lookup w1 x) eqn:E1; [reflexivity|].
  destruct (key_eqb k x) eqn:Ek; [|reflexivity].
  rewrite (lookup_none_keys w2 x) by (now rewrite <- (key_in_congr k x)).
  unfold py_or. now rewrite Hv.
Qed.

Lemma days_html_parts_ext (rt : Runtime) (w w' : dict) (present : list key) :
  (forall x, day_slots w x = day_slots w' x) ->
  days_html_parts rt w present = days_html_parts rt w' present.
Proof.
  intros H. induction present as [|day rest IH]; [reflexivity|].
  cbn [days_html_parts]. now rewrite H, IH.
Qed.

(** Leaving the days without slots out of [present] changes nothing. *)
Lemma days_html_parts_skip (rt : Runtime) (w : dict) (keep : key -> bool)
  (present : list key) :
  (forall x, has_slots w x = true -> keep x = true) ->
  days_html_parts rt w (filter keep present) = days_html_parts rt w present.
Proof.
  intros H. rewrite !days_html_parts_filter, filter_filter_andb. f_equal.
  apply filter_ext. intros x. specialize (H x).
  destruct (has_slots w x), (keep x); try reflexivity.
  now specialize (H eq_refl).
Qed.

Lemma order_days_drop (w1 w2 : dict) (k : key) (v : value) :
  keys_unique (keys (w1 ++ (k, v) :: w2)) = true ->
  order_days (w1 ++ w2) =
  filter (fun x => negb (key_eqb k x)) (order_days (w1 ++ (k, v) :: w2)).
Proof.
  intros U. pose proof U as U0. rewrite keys_app in U0. simpl in U0.
  destruct (keys_unique_middle _ _ _ U0) as [H1 [H2 U']].
  rewrite <- keys_app in U'.
  rewrite (order_days_canonical_then_extra _ U),
    (order_days_canonical_then_extra _ U'), filter_app.
  f_equal.
  - unfold canonical_present. rewrite filter_map_pull, filter_filter_andb.
    f_equal. apply filter_ext. intros d.
    rewrite !dict_mem_keys, !keys_app. simpl. rewrite !key_in_app. simpl.
    destruct (key_eqb k (KStr d)) eqn:E; simpl.
    + rewrite <- (key_in_congr k (KStr d)) by exact E.
      rewrite <- (key_in_congr k (KStr d)) by exact E.
      now rewrite H1, H2.
    + now rewrite andb_true_r.
  - unfold extra_keys.
    rewrite filter_filter_andb.
    rewrite (filter_ext (fun x => negb (is_canonical x) && negb (key_eqb k x))
               (fun x => negb (key_eqb k x) && negb (is_canonical x)))
      by (intros; apply andb_comm).
    rewrite <- filter_filter_andb. f_equal.
    rewrite !keys_app. simpl. rewrite filter_app. simpl.
    rewrite key_eqb_refl. simpl.
    assert (keep : forall l, key_in k l = false ->
              filter (fun x => negb (key_eqb k x)) l = l).
    { induction l as [|x l IH]; [reflexivity|]. simpl. intros Hl.
      apply orb_false_elim in Hl. destruct Hl as [Hx Hl].
      rewrite key_eqb_sym, Hx. simpl. now rewrite IH. }
    now rewrite !keep.
Qed.

(** The sections of a week are those of the week without an entry whose
    slots are empty or null. *)
Lemma days_html_parts_drop_empty (rt : Runtime) (w1 w2 : dict) (k : key) (v : value) :
  keys_unique (keys (w1 ++ (k, v) :: w2)) = true ->
  truthy v = false ->
  days_html_parts rt (w1 ++ (k, v) :: w2) (order_days (w1 ++ (k, v) :: w2)) =
  days_html_parts rt (w1 ++ w2) (order_days (w1 ++ w2)).
Proof.
  intros U Hv.
  rewrite (days_html_parts_ext rt _ (w1 ++ w2))
    by (intros x; now apply day_slots_drop_empty).
  rewrite (order_days_drop _ _ _ _ U).
  symmetry. apply days_html_parts_skip.
  intros x Hx. destruct (key_eqb k x) eqn:E; [|reflexivity].
  exfalso. rewrite keys_app in U. simpl in U.
  destruct (keys_unique_middle _ _ _ U) as [H1 [H2 _]].
  unfold has_slots, day_slots, dict_get in Hx.
  rewrite lookup_none_keys in Hx; [discriminate|].
  rewrite keys_app, key_in_app, <- !(key_in_congr k x) by exact E.
  now rewrite H1, H2.
Qed.

(** C6. Sections are emitted for the days that have slots and for no
    other: a day that is not a key of the week, or whose slot list is empty
    or null, has no slots, and the sections of the week are those of the
    week without such an entry. A document whose [week] is absent, null or
    empty has an empty [days_html]: no section at all. *)
Theorem empty_days_emit_nothing (rt : Runtime) :
  (forall week present,
     days_html_parts rt week present =
     mapM (section_of rt week) (filter (has_slots week) present)) /\
  (forall week day, lookup week day = None -> has_slots week day = false) /\
  (forall week day v,
     lookup week day = Some v -> truthy v = false -> has_slots week day = false) /\
  (forall w1 w2 k v,
     keys_unique (keys (w1 ++ (k, v) :: w2)) = true ->
     truthy v = false ->
     doc_days_html rt (VDict (w1 ++ (k, v) :: w2)) = doc_days_html rt (VDict (w1 ++ w2))) /\
  (forall d,
     truthy (dict_get d (KStr (q "week")) (VDict [])) = false ->
     generate_html rt (VDict d) = Ok (assemble (doc_name rt d) (doc_semester rt d) [])) /\
  (forall d,
     lookup d (KStr (q "week")) = None ->
     generate_html rt (VDict d) = Ok (assemble (doc_name rt d) (doc_semester rt d) [])).
Proof.
  assert (Hnoweek : forall d,
     truthy (dict_get d (KStr (q "week")) (VDict [])) = false ->
     generate_html rt (VDict d) = Ok (assemble (doc_name rt d) (doc_semester rt d) [])).
  { intros d H. rewrite generate_html_unfold. unfold py_or. rewrite H. reflexivity. }
  split; [exact (days_html_parts_filter rt)|].
  split.
  { intros week day H. unfold has_slots, day_slots, dict_get. now rewrite H. }
  split.
  { intros week day v H Hv. unfold has_slots, day_slots, dict_get, py_or.
    now rewrite H, Hv. }
  split.
  { intros w1 w2 k v U Hv. unfold doc_days_html. cbn [week_dict bind].
    now rewrite days_html_parts_drop_empty. }
  split; [exact Hnoweek|].
  intros d H. apply Hnoweek. unfold dict_get. now rewrite H.
Qed.

Lemma empty_days_emit_nothing_witness :
  doc_days_html example_runtime
    (VDict ([(KStr (q "monday"), VList [VDict []])]
            ++ (KStr (q "tuesday"), VNone) :: [(KStr (q "friday"), VList [])]))
  = doc_days_html example_runtime
    (VDict ([(KStr (q "monday"), VList [VDict []])]
            ++ [(KStr (q "friday"), VList [])])).
Proof.
  apply (proj1 (proj2 (proj2 (proj2 (empty_days_emit_nothing example_runtime)))));
    reflexivity.
Defined.

(* ===================================================================== *)
(** ** The header of a day *)
(* ===================================================================== *)

Lemma lower_from_ascii (rt : Runtime) (s : str) (i : nat) (r : str) :
  forallb is_ascii r = true -> lower_from rt s i r = map ascii_lower r.
Proof.
  revert i. induction r as [|c r IH]; intros i H; [reflexivity|].
  cbn [forallb] in H. apply andb_prop in H. destruct H as [Hc Hr].
  cbn [lower_from map]. unfold to_lower. unfold is_ascii in Hc. rewrite Hc.
  cbn [app]. now rewrite IH.
Qed.

Lemma capitalize_ascii (rt : Runtime) (c : N) (r : str) :
  forallb is_ascii (c :: r) = true ->
  capitalize rt (c :: r) = ascii_upper c :: map ascii_lower r.
Proof.
  cbn [forallb]. intros H. apply andb_prop in H. destruct H as [Hc Hr].
  unfold capitalize, to_title. unfold is_ascii in Hc. rewrite Hc.
  cbn [app]. now rewrite lower_from_ascii.
Qed.

(** C4, as the code has it. The header of a day's section shows the
    escaped result of [capitalize()] on the key: the first character in
    title case (upper case, for ASCII), every other character in lower
    case. The key [tueSDAY] is shown as [Tuesday]. *)
Theorem day_header_capitalize (rt : Runtime) :
  (forall s slots slots_html,
     day_slots_html rt slots = Ok slots_html ->
     day_section rt (KStr s) slots =
     Ok (section_markup (html_escape (capitalize rt s)) slots_html)) /\
  (forall c r,
     capitalize rt (c :: r) = to_title rt c ++ lower_from rt (c :: r) 1 r) /\
  (forall c r,
     forallb is_ascii (c :: r) = true ->
     capitalize rt (c :: r) = ascii_upper c :: map ascii_lower r) /\
  capitalize rt (q "tueSDAY") = q "Tuesday".
Proof.
  split.
  { intros s slots slots_html H. unfold day_section. rewrite H. reflexivity. }
  split; [reflexivity|].
  split; [exact (capitalize_ascii rt)|].
  change (q "tueSDAY") with (116%N :: q "ueSDAY").
  rewrite capitalize_ascii; reflexivity.
Qed.

Lemma day_header_capitalize_witness :
  day_section example_runtime (KStr (q "tueSDAY")) (VList [VDict []]) =
  Ok (section_markup (q "Tuesday") (slot_markup EM_DASH [])).
Proof.
  apply (proj1 (day_header_capitalize example_runtime)
           (q "tueSDAY") (VList [VDict []]) (slot_markup EM_DASH [])).
  reflexivity.
Defined.

(** C4 as worded fails: the rest of the key [tueSDAY] does not stay as it
    is in the header. *)
Lemma day_header_rest_lowercased :
  day_section example_runtime (KStr (q "tueSDAY")) (VList [VDict []]) <>
  Ok (section_markup (q "TueSDAY") (slot_markup EM_DASH [])).
Proof. vm_compute. discriminate. Qed.

(* ===================================================================== *)
(** ** Page assembly *)
(* ===================================================================== *)

Lemma template_fragments :
  template =
  frag0 ++ NAME_TOKEN ++ frag1 ++ SEM_TOKEN ++ frag2 ++ NAME_TOKEN ++ frag3
  ++ SEM_TOKEN ++ frag4 ++ DAYS_TOKEN ++ frag5.
Proof. vm_compute. reflexivity. Qed.

(** The fragments hold no underscore, hence no placeholder. *)
Lemma fragments_plain :
  forallb (fun f => negb (existsb (N.eqb 95) f))
    [frag0; frag1; frag2; frag3; frag4; frag5] = true.
Proof. vm_compute. reflexivity. Qed.

Lemma str_replace_scan (s old new : str) :
  nonempty old = true -> str_replace s old new = replace_from old new 0 s.
Proof. destruct old; [discriminate | reflexivity]. Qed.

Lemma starts_app_cases (tok a rest : str) :
  starts tok (a ++ rest) = true ->
  starts tok a = true \/
  exists sfx, tok = a ++ sfx /\ sfx <> [] /\ starts sfx rest = true.
Proof.
  revert a. induction tok as [|t tok IH]; intros a H; [now left|].
  destruct a as [|c a].
  - right. exists (t :: tok). repeat split; [discriminate | exact H].
  - cbn [app starts] in H. apply andb_prop in H. destruct H as [Htc H].
    apply N.eqb_eq in Htc. subst c.
    destruct (IH a H) as [Hl | [sfx [E [Hn Hs]]]].
    + left. cbn [starts]. now rewrite N.eqb_refl.
    + right. exists sfx. cbn [app]. now rewrite <- E.
Qed.

Lemma occurs_false_suffix (tok a1 a2 : str) :
  occurs tok (a1 ++ a2) = false -> starts tok a2 = false.
Proof.
  induction a1 as [|c a1 IH]; cbn [app].
  - destruct a2; cbn [occurs]; intros H; now apply orb_false_elim in H.
  - cbn [occurs]. intros H. apply orb_false_elim in H. now apply IH.
Qed.

Lemma existsb_app_mid (c : N) (a b : str) : existsb (N.eqb c) (a ++ c :: b) = true.
Proof.
  rewrite existsb_app. cbn [existsb]. rewrite N.eqb_refl. now rewrite orb_true_r.
Qed.

(** A fragment without the first character of [tok] is copied. *)
Lemma copy_plain (tok new a rest : str) :
  plain_for tok a = true ->
  replace_from tok new 0 (a ++ rest) = a ++ replace_from tok new 0 rest.
Proof.
  intros P. apply replace_from_copy. intros a1 a2 -> N.
  destruct tok as [|t tok]; [discriminate|].
  destruct a2 as [|c a2]; [congruence|].
  unfold plain_for in P. apply negb_true_iff in P.
  rewrite existsb_app in P. apply orb_false_elim in P. destruct P as [_ P].
  cbn [existsb] in P. apply orb_false_elim in P. destruct P as [P _].
  cbn [app starts]. now rewrite P.
Qed.

(** A text without [tok], before a character that [tok] does not hold, is
    copied: no occurrence begins in it, nor across its end. *)
Lemma copy_text (tok new a next rest : str) :
  occurs tok a = false ->
  guards tok next = true ->
  replace_from tok new 0 (a ++ next ++ rest) = a ++ replace_from tok new 0 (next ++ rest).
Proof.
  intros O G. apply replace_from_copy. intros a1 a2 -> N.
  destruct (starts tok (a2 ++ next ++ rest)) eqn:E; [exfalso|reflexivity].
  apply starts_app_cases in E. destruct E as [E | [sfx [E [Hn Hs]]]].
  - now rewrite (occurs_false_suffix tok a1 a2 O) in E.
  - destruct next as [|c next]; [discriminate|].
    destruct sfx as [|x sfx]; [congruence|].
    cbn [app] in Hs. apply starts_head in Hs. subst x.
    unfold guards in G. apply negb_true_iff in G.
    now rewrite E, existsb_app_mid in G.
Qed.

Lemma replace_match (tok new rest : str) :
  nonempty tok = true ->
  replace_from tok new 0 (tok ++ rest) = new ++ replace_from tok new 0 rest.
Proof.
  intros H. apply replace_from_match. now destruct tok.
Qed.

(** Side conditions on the fragments and the placeholders are closed
    boolean facts. *)
Ltac closed_side := vm_compute; reflexivity.

(** When the name holds neither of the two later placeholders and the
    semester does not hold the last one, the three replacements in a row
    fill the form. *)
Lemma assemble_intended (name semester days_html : str) :
  occurs SEM_TOKEN name = false ->
  occurs DAYS_TOKEN name = false ->
  occurs DAYS_TOKEN semester = false ->
  assemble name semester days_html = intended_page name semester days_html.
Proof.
  intros Hsn Hdn Hds. unfold assemble, intended_page.
  rewrite !str_replace_scan by reflexivity.
  rewrite template_fragments, <- (app_nil_r frag5).
  (* [__NAME__] *)
  rewrite (copy_plain NAME_TOKEN name frag0) by closed_side.
  rewrite (replace_match NAME_TOKEN name) by closed_side.
  rewrite (copy_plain NAME_TOKEN name frag1) by closed_side.
  rewrite (copy_text NAME_TOKEN name SEM_TOKEN frag2) by closed_side.
  rewrite (copy_plain NAME_TOKEN name frag2) by closed_side.
  rewrite (replace_match NAME_TOKEN name) by closed_side.
  rewrite (copy_plain NAME_TOKEN name frag3) by closed_side.
  rewrite (copy_text NAME_TOKEN name SEM_TOKEN frag4) by closed_side.
  rewrite (copy_plain NAME_TOKEN name frag4) by closed_side.
  rewrite (copy_text NAME_TOKEN name DAYS_TOKEN frag5) by closed_side.
  rewrite (copy_plain NAME_TOKEN name frag5) by closed_side.
  cbn [replace_from].
  (* [__SEM__] *)
  rewrite (copy_plain SEM_TOKEN semester frag0) by closed_side.
  rewrite (copy_text SEM_TOKEN semester name frag1) by (exact Hsn || closed_side).
  rewrite (copy_plain SEM_TOKEN semester frag1) by closed_side.
  rewrite (replace_match SEM_TOKEN semester) by closed_side.
  rewrite (copy_plain SEM_TOKEN semester frag2) by closed_side.
  rewrite (copy_text SEM_TOKEN semester name frag3) by (exact Hsn || closed_side).
  rewrite (copy_plain SEM_TOKEN semester frag3) by closed_side.
  rewrite (replace_match SEM_TOKEN semester) by closed_side.
  rewrite (copy_plain SEM_TOKEN semester frag4) by closed_side.
  rewrite (copy_text SEM_TOKEN semester DAYS_TOKEN frag5) by closed_side.
  rewrite (copy_plain SEM_TOKEN semester frag5) by closed_side.
  cbn [replace_from].
  (* [__DAYS_HTML__] *)
  rewrite (copy_plain DAYS_TOKEN days_html frag0) by closed_side.
  rewrite (copy_text DAYS_TOKEN days_html name frag1) by (exact Hdn || closed_side).
  rewrite (copy_plain DAYS_TOKEN days_html frag1) by closed_side.
  rewrite (copy_text DAYS_TOKEN days_html semester frag2) by (exact Hds || closed_side).
  rewrite (copy_plain DAYS_TOKEN days_html frag2) by closed_side.
  rewrite (copy_text DAYS_TOKEN days_html name frag3) by (exact Hdn || closed_side).
  rewrite (copy_plain DAYS_TOKEN days_html frag3) by closed_side.
  rewrite (copy_text DAYS_TOKEN days_html semester frag4) by (exact Hds || closed_side).
  rewrite (copy_plain DAYS_TOKEN days_html frag4) by closed_side.
  rewrite (replace_match DAYS_TOKEN days_html) by closed_side.
  rewrite (copy_plain DAYS_TOKEN days_html frag5) by closed_side.
  cbn [replace_from]. now rewrite !app_nil_r.
Qed.

(** C1, as the code has it. Escaping leaves a placeholder as it is, so a
    value of the document can hold one. The skeleton is six fragments,
    free of underscores, around five placeholders; for a document whose
    escaped name holds neither [__SEM__] nor [__DAYS_HTML__] and whose
    escaped semester does not hold [__DAYS_HTML__], the page is the
    skeleton with exactly the three substitutions: name, semester, days. *)
Theorem assembly_fills_placeholders (rt : Runtime) :
  (_escape rt (VStr NAME_TOKEN) = NAME_TOKEN /\
   _escape rt (VStr SEM_TOKEN) = SEM_TOKEN /\
   _escape rt (VStr DAYS_TOKEN) = DAYS_TOKEN) /\
  template =
    frag0 ++ NAME_TOKEN ++ frag1 ++ SEM_TOKEN ++ frag2 ++ NAME_TOKEN ++ frag3
    ++ SEM_TOKEN ++ frag4 ++ DAYS_TOKEN ++ frag5 /\
  forallb (fun f => negb (existsb (N.eqb 95) f))
    [frag0; frag1; frag2; frag3; frag4; frag5] = true /\
  (forall d days_html,
     doc_days_html rt (py_or (dict_get d (KStr (q "week")) (VDict [])) (VDict []))
       = Ok days_html ->
     occurs SEM_TOKEN (doc_name rt d) = false ->
     occurs DAYS_TOKEN (doc_name rt d) = false ->
     occurs DAYS_TOKEN (doc_semester rt d) = false ->
     generate_html rt (VDict d) =
     Ok (intended_page (doc_name rt d) (doc_semester rt d) days_html)).
Proof.
  split; [repeat split; reflexivity|].
  split; [exact template_fragments|].
  split; [exact fragments_plain|].
  intros d days_html Hdays Hsn Hdn Hds.
  rewrite generate_html_unfold, Hdays. cbn [bind].
  now rewrite assemble_intended.
Qed.

Lemma assembly_fills_placeholders_witness :
  generate_html example_runtime
    (VDict [(KStr (q "name"), VStr (q "CS101")); (KStr (q "semester"), VStr (q "Fall"))])
  = Ok (intended_page (q "CS101") (q "Fall") []).
Proof.
  apply (proj2 (proj2 (proj2 (assembly_fills_placeholders example_runtime)))
           [(KStr (q "name"), VStr (q "CS101")); (KStr (q "semester"), VStr (q "Fall"))]
           []); vm_compute; reflexivity.
Defined.

(** C1 as worded fails: a name that is the text [__SEM__] is still that
    text once escaped, and the second replacement turns it into the
    semester. *)
Lemma placeholder_in_name_replaced :
  occurs SEM_TOKEN
    (doc_name example_runtime
       [(KStr (q "name"), VStr SEM_TOKEN); (KStr (q "semester"), VStr (q "Fall"))])
    = true /\
  generate_html example_runtime
    (VDict [(KStr (q "name"), VStr SEM_TOKEN); (KStr (q "semester"), VStr (q "Fall"))])
    = Ok (intended_page (q "Fall") (q "Fall") []) /\
  generate_html example_runtime
    (VDict [(KStr (q "name"), VStr SEM_TOKEN); (KStr (q "semester"), VStr (q "Fall"))])
    <> Ok (intended_page SEM_TOKEN (q "Fall") []).
Proof.
  split; [vm_compute; reflexivity|].
  split; [vm_compute; reflexivity|].
  vm_compute. discriminate.
Qed.

(* ===================================================================== *)
(** ** Title and subtitle *)
(* ===================================================================== *)

(** Where the placeholders stand in the skeleton: the name between the
    opening [title] tag and a parenthesis, and in the [h1] heading; the
    semester in that parenthesis, and after [Semester:] in the subtitle. *)
Lemma fragments_around :
  ends_with (q "<title>") frag0 = true /\
  frag1 = q " (" /\
  starts (q ")</title>") frag2 = true /\
  ends_with (q "<h1>") frag2 = true /\
  frag3 = q "</h1>" ++ NL ++ q "  <div class=`meta`>Semester: " /\
  starts (q "</div>") frag4 = true.
Proof. repeat split; vm_compute; reflexivity. Qed.

(** C5, as the code has it. For a document that renders and whose title
    and subtitle hold no later placeholder, the page is the skeleton with
    the title in the [title] tag and in the [h1] heading and the subtitle
    in the title's parenthesis and after [Semester:]. The title is the
    escaped [name]; the default [Schedule] stands in when the document
    has no [name] key, and a [name] that is present is used as it is, so
    an empty or null [name] gives an empty title. The subtitle is the
    escaped [semester], empty when the key is absent. *)
Theorem title_and_subtitle (rt : Runtime) (d : dict) (days_html : str) :
  doc_days_html rt (py_or (dict_get d (KStr (q "week")) (VDict [])) (VDict []))
    = Ok days_html ->
  occurs SEM_TOKEN (doc_title rt d) = false ->
  occurs DAYS_TOKEN (doc_title rt d) = false ->
  occurs DAYS_TOKEN (doc_subtitle rt d) = false ->
  generate_html rt (VDict d) =
    Ok (frag0 ++ doc_title rt d ++ frag1 ++ doc_subtitle rt d ++ frag2
        ++ doc_title rt d ++ frag3 ++ doc_subtitle rt d ++ frag4
        ++ days_html ++ frag5) /\
  (ends_with (q "<title>") frag0 = true /\
   frag1 = q " (" /\
   starts (q ")</title>") frag2 = true /\
   ends_with (q "<h1>") frag2 = true /\
   frag3 = q "</h1>" ++ NL ++ q "  <div class=`meta`>Semester: " /\
   starts (q "</div>") frag4 = true) /\
  (lookup d (KStr (q "name")) = None -> doc_title rt d = q "Schedule") /\
  (forall v, lookup d (KStr (q "name")) = Some v -> doc_title rt d = _escape rt v) /\
  (lookup d (KStr (q "name")) = Some (VStr []) -> doc_title rt d = []) /\
  (lookup d (KStr (q "name")) = Some VNone -> doc_title rt d = []) /\
  (lookup d (KStr (q "semester")) = None -> doc_subtitle rt d = []) /\
  (forall v, lookup d (KStr (q "semester")) = Some v ->
     doc_subtitle rt d = _escape rt v).
Proof.
  intros Hdays Hsn Hdn Hds.
  assert (Ht : doc_name rt d = doc_title rt d).
  { unfold doc_name, doc_title, dict_get.
    now destruct (lookup d (KStr (q "name"))). }
  assert (Hs : doc_semester rt d = doc_subtitle rt d).
  { unfold doc_semester, doc_subtitle, dict_get.
    now destruct (lookup d (KStr (q "semester"))). }
  split.
  { rewrite generate_html_unfold, Hdays. cbn [bind]. rewrite Ht, Hs.
    now rewrite assemble_intended. }
  split; [exact fragments_around|].
  unfold doc_title, doc_subtitle.
  split; [intros ->; reflexivity|].
  split; [intros v ->; reflexivity|].
  split; [intros ->; reflexivity|].
  split; [intros ->; reflexivity|].
  split; [intros ->; reflexivity|].
  intros v ->; reflexivity.
Qed.

Lemma title_and_subtitle_witness :
  generate_html example_runtime (VDict [(KStr (q "semester"), VStr (q "Fall"))]) =
  Ok (frag0 ++ q "Schedule" ++ frag1 ++ q "Fall" ++ frag2
      ++ q "Schedule" ++ frag3 ++ q "Fall" ++ frag4 ++ [] ++ frag5).
Proof.
  apply (proj1 (title_and_subtitle example_runtime
           [(KStr (q "semester"), VStr (q "Fall"))] []
           eq_refl ltac:(vm_compute; reflexivity) ltac:(vm_compute; reflexivity)
           ltac:(vm_compute; reflexivity))).
Defined.

(** C5 as worded fails: with an empty [name] the page is the one of an
    empty title, not the one titled [Schedule]. *)
Lemma empty_name_not_defaulted :
  generate_html example_runtime (VDict [(KStr (q "name"), VStr [])])
    = Ok (assemble [] [] []) /\
  generate_html example_runtime (VDict [(KStr (q "name"), VStr [])])
    <> Ok (assemble (q "Schedule") [] []).
Proof.
  split; [reflexivity|]. vm_compute. discriminate.
Qed.

(* ===================================================================== *)
(** ** The entry point *)
(* ===================================================================== *)

Lemma str_eqb_refl (s : str) : str_eqb s s = true.
Proof. now apply str_eqb_eq. Qed.

Lemma find_set_node (fs : list (str * node)) (p : str) (n : node) :
  find_node (set_node fs p n) p = Some n.
Proof.
  induction fs as [|[p' n'] fs IH]; cbn [set_node find_node].
  - now rewrite str_eqb_refl.
  - destruct (str_eqb p' p) eqn:E; cbn [find_node].
    + now rewrite str_eqb_refl.
    + now rewrite E.
Qed.

Lemma find_set_node_other (fs : list (str * node)) (p p' : str) (n : node) :
  str_eqb p p' = false ->
  find_node (set_node fs p n) p' = find_node fs p'.
Proof.
  intros Hp. induction fs as [|[a m] fs IH]; cbn [set_node find_node].
  - now rewrite Hp.
  - destruct (str_eqb a p) eqn:E; cbn [find_node].
    + apply str_eqb_eq in E. subst a. now rewrite Hp.
    + now rewrite IH.
Qed.


(** C8. When the input path does not exist, the run ends with status 1
    and the message naming the path on the error stream; the program has
    only asked whether the path exists: nothing was opened, loaded,
    written or printed, and the files are as they were. When the input
    file is there and loading, rendering and writing succeed (the output
    path is no directory, it can be opened for writing and the page can be
    encoded), the run ends with status 0, the output file holds the page
    and one line on the standard output confirms it. A page that cannot
    be encoded is no success: the run ends with status 1, the output file
    is left empty and nothing is printed. *)
Theorem main_missing_input_or_success (rt : Runtime) (w : world) :
  (find_node (files w) IN_FILE = None ->
     fst (run_script rt w) = 1%Z /\
     stderr (snd (run_script rt w)) =
       stderr w ++ [Message (q "Input file not found: terrible.yaml")] /\
     events (snd (run_script rt w)) = events w ++ [EvExists IN_FILE] /\
     files (snd (run_script rt w)) = files w /\
     stdout (snd (run_script rt w)) = stdout w) /\
  (forall text doc page,
     find_node (files w) IN_FILE = Some (TextFile text) ->
     safe_load rt text = Ok doc ->
     generate_html rt (py_or doc (VDict [])) = Ok page ->
     find_node (files w) OUT_FILE <> Some Directory ->
     write_denied w = None ->
     (utf8_encodable page = true ->
      fst (run_script rt w) = 0%Z /\
      find_node (files (snd (run_script rt w))) OUT_FILE = Some (TextFile page) /\
      stdout (snd (run_script rt w)) = stdout w ++ [q "Wrote " ++ resolve rt OUT_FILE] /\
      stderr (snd (run_script rt w)) = stderr w /\
      events (snd (run_script rt w)) =
        events w ++ [EvExists IN_FILE; EvOpenRead IN_FILE; EvSafeLoad;
                     EvWriteText OUT_FILE; EvPrint]) /\
     (utf8_encodable page = false ->
      fst (run_script rt w) = 1%Z /\
      find_node (files (snd (run_script rt w))) OUT_FILE = Some (TextFile []) /\
      stdout (snd (run_script rt w)) = stdout w /\
      stderr (snd (run_script rt w)) = stderr w ++ [Traceback UnicodeEncodeError])).
Proof.
  split.
  - intros H. unfold run_script, main, path_exists. rewrite H. cbn. tauto.
  - intros text doc page Hin Hload Hgen Hout Hw.
    unfold run_script, main, path_exists. rewrite Hin. cbn [negb].
    unfold load_yaml. cbn [files log]. rewrite Hin, Hload, Hgen.
    unfold write_text. cbn [files log write_denied]. rewrite Hw.
    split; intros Hp; rewrite Hp;
      destruct (find_node (files w) OUT_FILE) as [[| |]|] eqn:E;
      try congruence;
      cbn [fst snd print eprint with_files files stdout stderr events log];
      rewrite find_set_node, <- ?app_assoc; cbn [app]; tauto.
Qed.

Lemma main_missing_input_or_success_witness :
  fst (run_script example_runtime
         {| files := []; write_denied := None; stdout := []; stderr := [];
            events := [] |}) = 1%Z /\
  fst (run_script example_runtime
         {| files := [(IN_FILE, TextFile [])]; write_denied := None;
            stdout := []; stderr := []; events := [] |}) = 0%Z.
Proof.
  split.
  - apply (proj1 (main_missing_input_or_success example_runtime _)). reflexivity.
  - refine (proj1 (proj1 (proj2 (main_missing_input_or_success example_runtime
                    {| files := [(IN_FILE, TextFile [])]; write_denied := None;
                       stdout := []; stderr := []; events := [] |})
             [] VNone (assemble (q "Schedule") [] []) eq_refl eq_refl eq_refl _ eq_refl) _)).
    + discriminate.
    + vm_compute. reflexivity.
Defined.

(* ===================================================================== *)
(** ** Attendees and lectures *)
(* ===================================================================== *)

Lemma count_char_app (c : N) (a b : str) :
  count_char c (a ++ b) = count_char c a + count_char c b.
Proof. apply count_occ_app. Qed.

Lemma count_char_escape (rt : Runtime) (v : value) (c : N) :
  c = 60%N \/ c = 62%N \/ c = 34%N \/ c = 39%N ->
  count_char c (_escape rt v) = 0.
Proof.
  intros Hc. apply count_occ_not_In. intros H. unfold _escape in H.
  apply html_escape_chars in H. destruct Hc as [->|[->|[->| ->]]]; tauto.
Qed.

Lemma count_char_join (c : N) (sep : str) (parts : list str) :
  count_char c sep = 0 ->
  count_char c (join sep parts) = list_sum (map (count_char c) parts).
Proof.
  intros Hs. induction parts as [|p [|p' rest] IH]; [reflexivity| |].
  - unfold list_sum. cbn [join map fold_right]. lia.
  - change (join sep (p :: p' :: rest)) with (p ++ sep ++ join sep (p' :: rest)).
    rewrite !count_char_app, Hs, IH. reflexivity.
Qed.

Lemma count_char_pill (rt : Runtime) (a : value) (c : N) :
  c = 60%N \/ c = 62%N ->
  count_char c (att_pill rt a) = 2.
Proof.
  intros Hc. unfold att_pill. rewrite !count_char_app.
  rewrite count_char_escape by tauto.
  destruct Hc as [-> | ->]; reflexivity.
Qed.

Lemma list_sum_const {A} (f : A -> nat) (n : nat) (l : list A) :
  (forall x, f x = n) -> list_sum (map f l) = n * List.length l.
Proof.
  intros H. unfold list_sum.
  induction l as [|a l IH]; cbn [map fold_right List.length]; [lia|].
  rewrite H, IH. lia.
Qed.

(** X1. Whatever a list of attendees holds (text with tags in it, numbers,
    nested lists), [render_attendees] returns, and the angle brackets of
    its result are those of the pills: two opening and two closing ones
    for each attendee, none for the dash of an empty list. *)
Theorem attendees_markup_only (rt : Runtime) (l : list value) :
  exists out,
    render_attendees rt (VList l) = Ok out /\
    count_char 60 out = 2 * List.length l /\
    count_char 62 out = 2 * List.length l /\
    (out = EM_DASH <-> l = []).
Proof.
  destruct l as [|a l].
  - exists EM_DASH. repeat split; reflexivity.
  - exists (join (q " ") (map (att_pill rt) (a :: l))).
    split; [reflexivity|].
    rewrite !count_char_join by reflexivity. rewrite !map_map.
    rewrite !(list_sum_const _ 2) by (intros x; apply count_char_pill; tauto).
    split; [reflexivity|]. split; [reflexivity|].
    split; [|discriminate].
    intros H. exfalso.
    assert (C : count_char 60 (join (q " ") (map (att_pill rt) (a :: l))) = 0)
      by (rewrite H; reflexivity).
    rewrite count_char_join, map_map in C by reflexivity.
    rewrite (list_sum_const _ 2) in C by (intros x; apply count_char_pill; tauto).
    cbn [List.length] in C. lia.
Qed.

(** X2. Attendees that are not a list: a truthy number or [True] cannot be
    iterated and [render_attendees] raises [TypeError]; a non-empty text
    is iterated character by character, one pill each; a non-empty
    mapping gives one pill for each key. *)
Theorem attendees_not_a_list (rt : Runtime) :
  (forall z, z <> 0%Z -> render_attendees rt (VInt z) = Raise TypeError) /\
  render_attendees rt (VBool true) = Raise TypeError /\
  (forall c s,
     render_attendees rt (VStr (c :: s)) =
     Ok (join (q " ") (map (fun x => att_pill rt (VStr [x])) (c :: s)))) /\
  (forall kv d,
     render_attendees rt (VDict (kv :: d)) =
     Ok (join (q " ")
           (map (fun k => att_pill rt (value_of_key k)) (keys (kv :: d))))).
Proof.
  split.
  { intros z Hz. unfold render_attendees. cbn [truthy].
    apply Z.eqb_neq in Hz. rewrite Hz. reflexivity. }
  split; [reflexivity|].
  split.
  { intros c s. unfold render_attendees. cbn [truthy negb py_iter bind].
    now rewrite map_map. }
  intros kv d. unfold render_attendees. cbn [truthy negb py_iter bind].
  now rewrite map_map.
Qed.

Lemma attendees_not_a_list_witness :
  render_attendees example_runtime (VInt 3) = Raise TypeError.
Proof.
  apply (proj1 (attendees_not_a_list example_runtime) 3%Z). lia.
Defined.

(** The counts in the literal pieces of the markup are closed numbers. *)
Ltac count_literals :=
  repeat match goal with
         | |- context [count_char ?c (q ?s)] =>
             let v := eval vm_compute in (count_char c (q s)) in
             change (count_char c (q s)) with v
         end.

Lemma render_lecture_unfold (rt : Runtime) (d : dict) :
  render_lecture rt (VDict d) =
  (attendees_html <-
     render_attendees rt (dict_get d (KStr (q "attendees")) (VList [])) ;;
   Ok (lecture_markup (_escape rt (dict_get d (KStr (q "lecture")) (VStr [])))
         attendees_html)).
Proof. reflexivity. Qed.

(** Attendees that are nothing or a list always render, with two pairs of
    angle brackets for each of them. *)
Lemma render_attendees_ok (rt : Runtime) (a : value) :
  falsy_or_list a = true ->
  exists out,
    render_attendees rt a = Ok out /\
    count_char 60 out = 2 * len_list a /\
    count_char 62 out = 2 * len_list a.
Proof.
  intros H. unfold falsy_or_list in H.
  destruct (truthy a) eqn:T.
  - destruct a as [| | | |l|]; try discriminate H.
    exists (join (q " ") (map (att_pill rt) l)).
    unfold render_attendees. rewrite T. cbn [negb py_iter bind len_list].
    split; [reflexivity|].
    rewrite !count_char_join by reflexivity. rewrite !map_map.
    now rewrite !(list_sum_const _ 2) by (intros x; apply count_char_pill; tauto).
  - exists EM_DASH. unfold render_attendees. rewrite T.
    split; [reflexivity|].
    destruct a as [| | | |[|x l]|]; try discriminate T; split; reflexivity.
Qed.

(** X3. A lecture without a title, or with a null or an empty one, and
    without attendees, or with null or empty ones, is one and the same
    block: an empty title line and a dash for the attendees. *)
Theorem lecture_defaults (rt : Runtime) (d : dict) :
  lookup d (KStr (q "lecture")) = None \/
  lookup d (KStr (q "lecture")) = Some VNone \/
  lookup d (KStr (q "lecture")) = Some (VStr []) ->
  truthy (dict_get d (KStr (q "attendees")) (VList [])) = false ->
  render_lecture rt (VDict d) = Ok (lecture_markup [] EM_DASH).
Proof.
  intros Ht Ha. rewrite render_lecture_unfold.
  unfold render_attendees. rewrite Ha. cbn [negb bind].
  unfold dict_get. destruct Ht as [-> | [-> | ->]]; reflexivity.
Qed.

Lemma lecture_defaults_witness :
  render_lecture example_runtime
    (VDict [(KStr (q "lecture"), VNone); (KStr (q "attendees"), VNone)])
  = Ok (lecture_markup [] EM_DASH).
Proof.
  apply (lecture_defaults example_runtime
           [(KStr (q "lecture"), VNone); (KStr (q "attendees"), VNone)]).
  - right. left. reflexivity.
  - reflexivity.
Defined.

(** X4. A lecture whose attendees are nothing or a list always renders,
    and the angle brackets of its block are those of the markup alone: six
    pairs for the block and two for each attendee, whatever the title and
    the attendees hold. *)
Theorem lecture_markup_only (rt : Runtime) (d : dict) :
  falsy_or_list (dict_get d (KStr (q "attendees")) (VList [])) = true ->
  exists out,
    render_lecture rt (VDict d) = Ok out /\
    count_char 60 out =
      6 + 2 * len_list (dict_get d (KStr (q "attendees")) (VList [])) /\
    count_char 62 out =
      6 + 2 * len_list (dict_get d (KStr (q "attendees")) (VList [])).
Proof.
  intros H. destruct (render_attendees_ok rt _ H) as [ah [Hr [H60 H62]]].
  exists (lecture_markup (_escape rt (dict_get d (KStr (q "lecture")) (VStr []))) ah).
  rewrite render_lecture_unfold, Hr. split; [reflexivity|].
  unfold lecture_markup. rewrite !count_char_app, H60, H62.
  rewrite !count_char_escape by tauto.
  count_literals. split; lia.
Qed.

Lemma lecture_markup_only_witness :
  exists out,
    render_lecture example_runtime
      (VDict [(KStr (q "lecture"), VStr (q "<b>Intro</b>"));
              (KStr (q "attendees"), VList [VStr (q "A<B"); VInt 7])]) = Ok out /\
    count_char 60 out = 10 /\ count_char 62 out = 10.
Proof.
  apply (lecture_markup_only example_runtime
           [(KStr (q "lecture"), VStr (q "<b>Intro</b>"));
            (KStr (q "attendees"), VList [VStr (q "A<B"); VInt 7])]).
  reflexivity.
Defined.

(* ===================================================================== *)
(** ** More on slots *)
(* ===================================================================== *)

(** Rendering a scalar as a lecture: it has no [get]. *)
Lemma render_lecture_scalar (rt : Runtime) (k : key) :
  render_lecture rt (value_of_key k) = Raise AttributeError.
Proof. destruct k; reflexivity. Qed.

Lemma mapM_first_raises {A B} (f : A -> result B) (e : exn) (a : A) (l : list A) :
  f a = Raise e -> mapM f (a :: l) = Raise e.
Proof. intros H. cbn [mapM]. now rewrite H. Qed.

(** X5. [lectures] that are not a list: a non-empty text or a non-empty
    mapping is iterated, its characters or keys are no lectures, and
    [render_slot] raises [AttributeError]; a truthy number or [True] is
    not iterable and it raises [TypeError]. The time column is computed
    first, so this is what happens when the [time] is in order. *)
Theorem slot_lectures_not_a_list (rt : Runtime) (d : dict) (se : value * value) :
  slot_start_end (dict_get d (KStr (q "time")) (VList [])) = Ok se ->
  (forall c s,
     lookup d (KStr (q "lectures")) = Some (VStr (c :: s)) ->
     render_slot rt (VDict d) = Raise AttributeError) /\
  (forall kv m,
     lookup d (KStr (q "lectures")) = Some (VDict (kv :: m)) ->
     render_slot rt (VDict d) = Raise AttributeError) /\
  (forall z,
     lookup d (KStr (q "lectures")) = Some (VInt z) -> z <> 0%Z ->
     render_slot rt (VDict d) = Raise TypeError) /\
  (lookup d (KStr (q "lectures")) = Some (VBool true) ->
     render_slot rt (VDict d) = Raise TypeError).
Proof.
  intros Hse. rewrite render_slot_unfold, Hse. cbn [bind].
  unfold slot_lectures_html, dict_get.
  split; [|split; [|split]].
  - intros c s ->. unfold py_or. cbn [truthy py_iter map bind].
    change (VStr [c]) with (value_of_key (KStr [c])).
    now rewrite (mapM_first_raises _ AttributeError) by apply render_lecture_scalar.
  - intros kv m ->. unfold py_or. cbn [truthy py_iter keys map bind].
    now rewrite (mapM_first_raises _ AttributeError) by apply render_lecture_scalar.
  - intros z -> Hz. unfold py_or. cbn [truthy].
    apply Z.eqb_neq in Hz. rewrite Hz. reflexivity.
  - intros ->. reflexivity.
Qed.

Lemma slot_lectures_not_a_list_witness :
  render_slot example_runtime
    (VDict [(KStr (q "lectures"), VStr (q "Intro"))]) = Raise AttributeError.
Proof.
  apply (proj1 (slot_lectures_not_a_list example_runtime
                  [(KStr (q "lectures"), VStr (q "Intro"))] (VStr [], VStr [])
                  eq_refl) 73%N (q "ntro")).
  reflexivity.
Defined.

(** X6. A slot without lectures still renders: when [lectures] is missing,
    null or empty, the slot is its time column beside an empty lectures
    column. *)
Theorem slot_without_lectures (rt : Runtime) (d : dict) (se : value * value) :
  slot_start_end (dict_get d (KStr (q "time")) (VList [])) = Ok se ->
  truthy (dict_get d (KStr (q "lectures")) (VList [])) = false ->
  render_slot rt (VDict d) = Ok (slot_markup (time_str rt (fst se) (snd se)) []).
Proof.
  intros Hse Hl. rewrite render_slot_unfold, Hse. cbn [bind].
  unfold slot_lectures_html, py_or. rewrite Hl. reflexivity.
Qed.

Lemma slot_without_lectures_witness :
  render_slot example_runtime
    (VDict [(KStr (q "time"), VList [VStr (q "09:00"); VStr (q "10:00")]);
            (KStr (q "lectures"), VNone)])
  = Ok (slot_markup (q "09:00 " ++ EM_DASH ++ q " 10:00") []).
Proof.
  apply (slot_without_lectures example_runtime
           [(KStr (q "time"), VList [VStr (q "09:00"); VStr (q "10:00")]);
            (KStr (q "lectures"), VNone)]
           (VStr (q "09:00"), VStr (q "10:00"))); reflexivity.
Defined.

(** X7. A [time] that is a non-empty mapping is subscripted with [0]: the
    value under the key [0] (or [False], which equals it) is the start
    and the end is empty; without such a key [render_slot] raises
    [KeyError]. *)
Theorem slot_time_mapping (rt : Runtime) (d : dict) (kv : key * value) (m : dict) :
  lookup d (KStr (q "time")) = Some (VDict (kv :: m)) ->
  (lookup (kv :: m) (KInt 0) = None ->
     render_slot rt (VDict d) = Raise KeyError) /\
  (forall x,
     lookup (kv :: m) (KInt 0) = Some x ->
     slot_start_end (VDict (kv :: m)) = Ok (x, VStr [])) /\
  lookup ((KBool false, VStr (q "08:00")) :: m) (KInt 0) = Some (VStr (q "08:00")).
Proof.
  intros Hd. split; [|split].
  - intros H0. rewrite render_slot_unfold. unfold dict_get. rewrite Hd.
    unfold slot_start_end. cbn [isinstance_list negb orb truthy getitem Z.of_nat].
    now rewrite H0.
  - intros x H0. unfold slot_start_end.
    cbn [isinstance_list negb orb truthy getitem Z.of_nat]. now rewrite H0.
  - reflexivity.
Qed.

Lemma slot_time_mapping_witness :
  render_slot example_runtime
    (VDict [(KStr (q "time"),
             VDict [(KStr (q "start"), VStr (q "09:00"))])]) = Raise KeyError.
Proof.
  apply (proj1 (slot_time_mapping example_runtime
                  [(KStr (q "time"), VDict [(KStr (q "start"), VStr (q "09:00"))])]
                  (KStr (q "start"), VStr (q "09:00")) [] eq_refl)).
  reflexivity.
Defined.

(** X8. The choice between the dash and the range is made on the truth
    value of start and end, before they are escaped: the time column is
    the dash exactly when both are falsy. So two zeros give the dash
    although each would print as a digit, while a zero beside a non-zero
    number is shown. *)
Theorem time_dash_on_truth_value (rt : Runtime) :
  (forall start end_,
     time_str rt start end_ = EM_DASH <->
     truthy start = false /\ truthy end_ = false) /\
  (forall a b,
     time_str rt (VInt a) (VInt b) = EM_DASH <-> a = 0%Z /\ b = 0%Z) /\
  (forall a b, a <> 0%Z \/ b <> 0%Z ->
     time_str rt (VInt a) (VInt b) =
     _escape rt (VInt a) ++ q " " ++ EM_DASH ++ q " " ++ _escape rt (VInt b)) /\
  _escape rt (VInt 0) = q "0".
Proof.
  split; [exact (time_str_dash_iff rt)|].
  split.
  { intros a b. rewrite time_str_dash_iff. cbn [truthy].
    rewrite !negb_false_iff, !Z.eqb_eq. tauto. }
  split; [|reflexivity].
  intros a b H. unfold time_str. cbn [truthy].
  destruct (Z.eqb_spec a 0), (Z.eqb_spec b 0); cbn [negb orb]; try reflexivity.
  tauto.
Qed.

Lemma time_dash_on_truth_value_witness :
  time_str example_runtime (VInt 0) (VInt 30) = q "0 " ++ EM_DASH ++ q " 30".
Proof.
  apply (proj1 (proj2 (proj2 (time_dash_on_truth_value example_runtime))) 0%Z 30%Z).
  right. lia.
Defined.

(* ===================================================================== *)
(** ** Documents of the usual shape always render *)
(* ===================================================================== *)

Lemma mapM_ok {A B} (f : A -> result B) (l : list A) :
  Forall (fun x => exists y, f x = Ok y) l -> exists ys, mapM f l = Ok ys.
Proof.
  induction 1 as [|a l [y Hy] _ [ys Hys]]; [now exists []|].
  exists (y :: ys). cbn [mapM]. now rewrite Hy, Hys.
Qed.

Lemma forallb_Forall_ok {A B} (p : A -> bool) (f : A -> result B) (l : list A) :
  (forall x, p x = true -> exists y, f x = Ok y) ->
  forallb p l = true -> Forall (fun x => exists y, f x = Ok y) l.
Proof.
  intros H Hl. apply Forall_forall. intros x Hx. apply H.
  rewrite forallb_forall in Hl. now apply Hl.
Qed.

Lemma render_lecture_ok (rt : Runtime) (v : value) :
  wf_lecture v = true -> exists out, render_lecture rt v = Ok out.
Proof.
  destruct v as [| | | | |d]; try discriminate. cbn [wf_lecture]. intros H.
  destruct (render_attendees_ok rt _ H) as [ah [Hr _]].
  rewrite render_lecture_unfold, Hr. now eexists.
Qed.

Lemma slot_lectures_html_ok (rt : Runtime) (d : dict) :
  wf_lectures (dict_get d (KStr (q "lectures")) (VList [])) = true ->
  exists out, slot_lectures_html rt d = Ok out.
Proof.
  unfold wf_lectures, slot_lectures_html, py_or.
  destruct (truthy (dict_get d (KStr (q "lectures")) (VList []))) eqn:T;
    cbn [negb orb]; intros H.
  - destruct (dict_get d (KStr (q "lectures")) (VList [])) as [| | | |ls|];
      try discriminate H.
    cbn [py_iter bind].
    destruct (mapM_ok (render_lecture rt) ls) as [hs Hhs].
    { now apply (forallb_Forall_ok wf_lecture); [apply render_lecture_ok|]. }
    rewrite Hhs. now eexists.
  - now eexists.
Qed.

Lemma slot_start_end_ok (t : value) :
  falsy_or_list t = true -> exists se, slot_start_end t = Ok se.
Proof.
  unfold falsy_or_list. intros H.
  destruct t as [|b|z|s|l|m]; cbn in H |- *.
  - now eexists.
  - destruct b; [discriminate | now eexists].
  - destruct (z =? 0)%Z; cbn in H |- *; [now eexists | discriminate].
  - destruct s; [now eexists | discriminate].
  - destruct l as [|a [|b l]]; now eexists.
  - destruct m; [now eexists | discriminate].
Qed.

Lemma render_slot_ok (rt : Runtime) (v : value) :
  wf_slot v = true -> exists out, render_slot rt v = Ok out.
Proof.
  destruct v as [| | | | |d]; try discriminate. cbn [wf_slot]. intros H.
  apply andb_prop in H. destruct H as [Ht Hl].
  destruct (slot_start_end_ok _ Ht) as [se Hse].
  destruct (slot_lectures_html_ok rt d Hl) as [lh Hlh].
  rewrite render_slot_unfold, Hse, Hlh. now eexists.
Qed.

Lemma lookup_in (d : dict) (k : key) (v : value) :
  lookup d k = Some v -> exists k', In (k', v) d.
Proof.
  induction d as [|[k' v'] d IH]; [discriminate|]. cbn [lookup].
  destruct (key_eqb k' k).
  - intros [= ->]. exists k'. now left.
  - intros H. destruct (IH H) as [k'' Hk]. exists k''. now right.
Qed.

Lemma day_section_ok (rt : Runtime) (w : dict) (day : key) :
  forallb (fun kv => is_text_key (fst kv) && wf_slots (snd kv)) w = true ->
  is_text_key day = true ->
  has_slots w day = true ->
  exists sec, section_of rt w day = Ok sec.
Proof.
  intros Hw Hk Hs. unfold section_of, has_slots in *.
  unfold day_slots, dict_get, py_or in *.
  destruct (lookup w day) as [v|] eqn:L; [|discriminate Hs].
  destruct (truthy v) eqn:T; [|discriminate Hs].
  destruct (lookup_in _ _ _ L) as [k' Hin].
  rewrite forallb_forall in Hw. specialize (Hw _ Hin). cbn [fst snd] in Hw.
  apply andb_prop in Hw. destruct Hw as [_ Hv].
  unfold wf_slots in Hv. rewrite T in Hv. cbn [negb orb] in Hv.
  destruct v as [| | | |ss|]; try discriminate Hv.
  destruct (mapM_ok (render_slot rt) ss) as [hs Hhs].
  { now apply (forallb_Forall_ok wf_slot); [apply render_slot_ok|]. }
  destruct day as [| | |s]; try discriminate Hk.
  unfold day_section, day_slots_html. cbn [py_iter bind key_capitalize].
  rewrite Hhs. now eexists.
Qed.

Lemma scan_keys_in (ks present seen : list key) (k : key) :
  In k (scan_keys ks present seen) -> In k present \/ In k ks.
Proof.
  revert present seen. induction ks as [|x ks IH]; intros present seen H.
  - now left.
  - cbn [scan_keys] in H. destruct (negb (key_in x seen)).
    + apply IH in H. destruct H as [H|H]; [|right; now right].
      apply in_app_or in H. destruct H as [H|[<-|[]]]; [now left | right; now left].
    + apply IH in H. destruct H as [H|H]; [now left | right; now right].
Qed.

Lemma order_days_text_keys (w : dict) :
  forallb (fun kv => is_text_key (fst kv) && wf_slots (snd kv)) w = true ->
  Forall (fun k => is_text_key k = true) (order_days w).
Proof.
  intros Hw. apply Forall_forall. intros k Hk. unfold order_days in Hk.
  rewrite scan_day_order_spec in Hk. cbn [fst snd app] in Hk.
  apply scan_keys_in in Hk. destruct Hk as [Hk|Hk].
  - apply in_map_iff in Hk. now destruct Hk as [d [<- _]].
  - unfold keys in Hk. apply in_map_iff in Hk. destruct Hk as [[k' v] [<- Hin]].
    rewrite forallb_forall in Hw. specialize (Hw _ Hin). cbn [fst snd] in Hw.
    now apply andb_prop in Hw.
Qed.

(** X9. A document of the usual shape always renders: when [week] is
    missing, null or a mapping from text keys to lists of slots, each
    slot a mapping whose [time] is nothing or a list and whose lectures
    are mappings with nothing or a list as attendees, [generate_html]
    returns a page, whatever the texts, the numbers and the list lengths
    in it. *)
Theorem usual_documents_render (rt : Runtime) (d : dict) :
  wf_doc d = true ->
  exists days_html,
    doc_days_html rt
      (py_or (dict_get d (KStr (q "week")) (VDict [])) (VDict [])) = Ok days_html /\
    generate_html rt (VDict d) =
    Ok (assemble (doc_name rt d) (doc_semester rt d) days_html).
Proof.
  unfold wf_doc, wf_week. intros H.
  assert (Hd : exists days_html,
    doc_days_html rt
      (py_or (dict_get d (KStr (q "week")) (VDict [])) (VDict [])) = Ok days_html).
  { unfold py_or.
    destruct (truthy (dict_get d (KStr (q "week")) (VDict []))) eqn:T;
      cbn [negb orb] in H; [|now eexists].
    destruct (dict_get d (KStr (q "week")) (VDict [])) as [| | | | |w];
      try discriminate H.
    unfold doc_days_html. cbn [week_dict bind].
    rewrite days_html_parts_filter.
    destruct (mapM_ok (section_of rt w) (filter (has_slots w) (order_days w)))
      as [parts Hp].
    { apply Forall_forall. intros k Hk. apply filter_In in Hk.
      destruct Hk as [Hk Hs]. apply day_section_ok; [exact H | | exact Hs].
      pose proof (order_days_text_keys w H) as F.
      rewrite Forall_forall in F. now apply F. }
    rewrite Hp. now eexists. }
  destruct Hd as [days_html Hd]. exists days_html. split; [exact Hd|].
  now rewrite generate_html_unfold, Hd.
Qed.

Lemma usual_documents_render_witness :
  exists days_html,
    doc_days_html example_runtime
      (VDict [(KStr (q "monday"),
               VList [VDict [(KStr (q "time"), VList [VStr (q "09:00"); VStr (q "10:00")]);
                             (KStr (q "lectures"),
                              VList [VDict [(KStr (q "lecture"), VStr (q "Intro"));
                                            (KStr (q "attendees"), VList [VStr (q "Alice")])]])]])])
      = Ok days_html /\
    generate_html example_runtime
      (VDict [(KStr (q "name"), VStr (q "CS101")); (KStr (q "semester"), VStr (q "Fall"));
              (KStr (q "week"),
               VDict [(KStr (q "monday"),
               VList [VDict [(KStr (q "time"), VList [VStr (q "09:00"); VStr (q "10:00")]);
                             (KStr (q "lectures"),
                              VList [VDict [(KStr (q "lecture"), VStr (q "Intro"));
                                            (KStr (q "attendees"), VList [VStr (q "Alice")])]])]])])])
    = Ok (assemble (q "CS101") (q "Fall") days_html).
Proof.
  apply (usual_documents_render example_runtime
      [(KStr (q "name"), VStr (q "CS101")); (KStr (q "semester"), VStr (q "Fall"));
       (KStr (q "week"),
        VDict [(KStr (q "monday"),
        VList [VDict [(KStr (q "time"), VList [VStr (q "09:00"); VStr (q "10:00")]);
                      (KStr (q "lectures"),
                       VList [VDict [(KStr (q "lecture"), VStr (q "Intro"));
                                     (KStr (q "attendees"), VList [VStr (q "Alice")])]])]])])]).
  reflexivity.
Defined.

(* ===================================================================== *)
(** ** The ordered days are the days of the week *)
(* ===================================================================== *)

Lemma keys_unique_NoDup (ks : list key) : keys_unique ks = true -> NoDup ks.
Proof.
  induction ks as [|k ks IH]; [constructor|]. cbn [keys_unique]. intros H.
  apply andb_prop in H. destruct H as [Hk H]. constructor; [|now apply IH].
  intros Hin. apply negb_true_iff in Hk.
  assert (key_in k ks = true); [|congruence].
  apply key_in_spec. exists k. split; [exact Hin | apply key_eqb_refl].
Qed.

Lemma day_order_NoDup : NoDup day_order.
Proof.
  unfold day_order.
  repeat (constructor; [cbn; intuition discriminate|]). constructor.
Qed.

Lemma NoDup_map_KStr (l : list str) : NoDup l -> NoDup (map KStr l).
Proof.
  induction 1 as [|a l Ha _ IH]; [constructor|]. cbn [map]. constructor; [|exact IH].
  intros H. apply in_map_iff in H. destruct H as [b [[= ->] Hb]]. contradiction.
Qed.

Lemma filter_split_perm {A} (f : A -> bool) (l : list A) :
  Permutation (filter f l ++ filter (fun x => negb (f x)) l) l.
Proof.
  induction l as [|a l IH]; [constructor|]. cbn [filter].
  destruct (f a); cbn [negb app].
  - now constructor.
  - symmetry. apply Permutation_cons_app. now symmetry.
Qed.

(** A conventional day is a key of the week when, and only when, it is
    among the days found by the first loop. *)
Lemma canonical_present_In (week : dict) (k : key) :
  In k (canonical_present week) <-> In k (filter is_canonical (keys week)).
Proof.
  unfold canonical_present. rewrite filter_In, in_map_iff. split.
  - intros [d [<- Hd]]. apply filter_In in Hd. destruct Hd as [Hd Hm].
    rewrite dict_mem_keys in Hm. apply key_in_spec in Hm.
    destruct Hm as [k' [Hin Heq]]. apply key_eqb_str in Heq. subst k'.
    split; [exact Hin|]. unfold is_canonical. apply key_in_spec.
    exists (KStr d). split; [now apply in_map | apply key_eqb_refl].
  - intros [Hin Hc]. unfold is_canonical in Hc. apply key_in_spec in Hc.
    destruct Hc as [k' [Hk' Heq]]. apply in_map_iff in Hk'.
    destruct Hk' as [d [<- Hd]]. rewrite key_eqb_sym in Heq.
    apply key_eqb_str in Heq. subst k. exists d. split; [reflexivity|].
    apply filter_In. split; [exact Hd|].
    rewrite dict_mem_keys. apply key_in_spec.
    exists (KStr d). split; [exact Hin | apply key_eqb_refl].
Qed.

Lemma order_days_perm (week : dict) :
  keys_unique (keys week) = true ->
  Permutation (order_days week) (keys week).
Proof.
  intros U. rewrite (order_days_canonical_then_extra _ U).
  eapply Permutation_trans; [|apply (filter_split_perm is_canonical)].
  apply Permutation_app; [|reflexivity].
  apply NoDup_Permutation.
  - apply NoDup_map_KStr, NoDup_filter, day_order_NoDup.
  - apply NoDup_filter, keys_unique_NoDup, U.
  - apply canonical_present_In.
Qed.

(** X10. Ordering the days loses nothing and repeats nothing: the ordered
    days are a rearrangement of the keys of the week, so every key comes
    exactly once and nothing else comes. *)
Theorem order_days_rearranges_keys (week : dict) :
  keys_unique (keys week) = true ->
  Permutation (order_days week) (keys week) /\
  NoDup (order_days week) /\
  List.length (order_days week) = List.length week /\
  (forall k, In k (order_days week) <-> In k (keys week)).
Proof.
  intros U. pose proof (order_days_perm week U) as P.
  split; [exact P|]. split; [|split].
  - apply (Permutation_NoDup (Permutation_sym P)), keys_unique_NoDup, U.
  - rewrite (Permutation_length P). unfold keys. apply length_map.
  - intros k. split; intros H.
    + exact (Permutation_in k P H).
    + exact (Permutation_in k (Permutation_sym P) H).
Qed.

Lemma order_days_rearranges_keys_witness :
  Permutation
    (order_days
       [(KStr (q "extra"), VNone); (KStr (q "sunday"), VNone);
        (KInt 3, VNone); (KStr (q "monday"), VNone)])
    (keys
       [(KStr (q "extra"), VNone); (KStr (q "sunday"), VNone);
        (KInt 3, VNone); (KStr (q "monday"), VNone)]).
Proof.
  exact (proj1 (order_days_rearranges_keys
    [(KStr (q "extra"), VNone); (KStr (q "sunday"), VNone);
     (KInt 3, VNone); (KStr (q "monday"), VNone)] eq_refl)).
Defined.

(* ===================================================================== *)
(** ** Documents that do not render *)
(* ===================================================================== *)





(** X12. Shapes that stop [generate_html]: a document that is not a
    mapping has no [get] and the call raises [AttributeError]; so does a
    [week] that is a non-empty list or text, at [week.keys()]; a [week]
    that is a non-zero number or [True] raises [TypeError] at the first
    membership test. *)
Theorem odd_shapes_raise (rt : Runtime) :
  (forall v, (forall d, v <> VDict d) -> generate_html rt v = Raise AttributeError) /\
  (forall d x l,
     lookup d (KStr (q "week")) = Some (VList (x :: l)) ->
     generate_html rt (VDict d) = Raise AttributeError) /\
  (forall d c s,
     lookup d (KStr (q "week")) = Some (VStr (c :: s)) ->
     generate_html rt (VDict d) = Raise AttributeError) /\
  (forall d z,
     lookup d (KStr (q "week")) = Some (VInt z) -> z <> 0%Z ->
     generate_html rt (VDict d) = Raise TypeError) /\
  (forall d,
     lookup d (KStr (q "week")) = Some (VBool true) ->
     generate_html rt (VDict d) = Raise TypeError).
Proof.
  split.
  { intros v H. destruct v as [| | | | |d]; try reflexivity. now destruct (H d). }
  split.
  { intros d x l H. rewrite generate_html_unfold. unfold dict_get. now rewrite H. }
  split.
  { intros d c s H. rewrite generate_html_unfold. unfold dict_get. now rewrite H. }
  split.
  { intros d z H Hz. rewrite generate_html_unfold. unfold dict_get, py_or.
    rewrite H. cbn [truthy]. apply Z.eqb_neq in Hz. now rewrite Hz. }
  intros d H. rewrite generate_html_unfold. unfold dict_get. now rewrite H.
Qed.

Lemma odd_shapes_raise_witness :
  generate_html example_runtime (VList [VStr (q "monday")]) = Raise AttributeError.
Proof.
  apply (proj1 (odd_shapes_raise example_runtime)). discriminate.
Defined.

(* ===================================================================== *)
(** ** More on the escaper *)
(* ===================================================================== *)

Ltac split_escape_char x :=
  destruct (N.eqb x 38) eqn:?;
  [|destruct (N.eqb x 60) eqn:?;
    [|destruct (N.eqb x 62) eqn:?;
      [|destruct (N.eqb x 34) eqn:?;
        [|destruct (N.eqb x 39) eqn:?]]]].

(** What one character became can be read back from the front of the
    escaped text. *)
Lemma escape_char_decode (a b : N) (ra rb : str) :
  escape_char a ++ ra = escape_char b ++ rb -> a = b /\ ra = rb.
Proof.
  unfold escape_char.
  split_escape_char a; split_escape_char b; intros H; cbn in H;
    repeat match goal with
           | E : N.eqb _ _ = true |- _ => apply N.eqb_eq in E; subst
           end;
    try discriminate H;
    inversion H; subst;
    try match goal with
        | E : N.eqb ?n ?n = false |- _ => rewrite N.eqb_refl in E; discriminate E
        end;
    split; reflexivity.
Qed.

Lemma html_escape_inj (a b : str) : html_escape a = html_escape b -> a = b.
Proof.
  rewrite !html_escape_flat_map. revert b.
  induction a as [|x a IH]; intros [|y b] H; try reflexivity.
  - cbn [flat_map] in H. symmetry in H. apply app_eq_nil in H.
    destruct H as [H _]. unfold escape_char in H.
    split_escape_char y; discriminate H.
  - cbn [flat_map] in H. apply app_eq_nil in H.
    destruct H as [H _]. unfold escape_char in H.
    split_escape_char x; discriminate H.
  - cbn [flat_map] in H. apply escape_char_decode in H.
    destruct H as [-> H]. f_equal. now apply IH.
Qed.

(** X13. Escaping loses nothing: two texts that escape to the same text
    are the same text, so distinct names, titles or attendees are shown
    distinctly. *)
Theorem escape_injective (rt : Runtime) (a b : str) :
  _escape rt (VStr a) = _escape rt (VStr b) -> a = b.
Proof.
  unfold _escape. cbn [py_str]. apply html_escape_inj.
Qed.

Lemma escape_injective_witness : q "a&b" = q "a&b".
Proof.
  apply (escape_injective example_runtime (q "a&b") (q "a&b")). reflexivity.
Defined.

Lemma escape_char_length (c : N) :
  1 <= List.length (escape_char c) <= 6.
Proof.
  unfold escape_char. split_escape_char c; cbn; lia.
Qed.

(** X14. Escaping works character by character: the escape of two texts
    put together is their escapes put together, the result is never
    shorter than the text and at most six times as long. *)
Theorem escape_concat_and_length (rt : Runtime) (a b : str) :
  _escape rt (VStr (a ++ b)) = _escape rt (VStr a) ++ _escape rt (VStr b) /\
  List.length a <= List.length (_escape rt (VStr a)) <= 6 * List.length a.
Proof.
  unfold _escape. cbn [py_str]. rewrite !html_escape_flat_map. split.
  - apply flat_map_app.
  - induction a as [|c a IH]; [cbn; lia|].
    cbn [flat_map List.length]. rewrite length_app.
    pose proof (escape_char_length c). lia.
Qed.

Lemma escape_concat_and_length_witness :
  List.length (q "a<b") <= List.length (_escape example_runtime (VStr (q "a<b")))
    <= 6 * List.length (q "a<b").
Proof.
  exact (proj2 (escape_concat_and_length example_runtime (q "a<b") [])).
Defined.

(* ===================================================================== *)
(** ** More on the entry point *)
(* ===================================================================== *)

(** Every way [main] can go, taken apart. *)
Ltac run_cases rt w :=
  unfold run_script, main, path_exists, load_yaml, write_text;
  cbn [files log write_denied];
  destruct (find_node (files w) IN_FILE) as [[| ? | ?]|] eqn:?;
  cbn [negb files log write_denied];
  try match goal with
      | |- context [safe_load rt ?t] =>
          destruct (safe_load rt t) as [?|?] eqn:?
      end;
  cbn [files log write_denied];
  try match goal with
      | |- context [generate_html rt ?d] =>
          destruct (generate_html rt d) as [?|?] eqn:?
      end;
  cbn [files log write_denied];
  try match goal with
      | |- context [find_node (files w) OUT_FILE] =>
          destruct (find_node (files w) OUT_FILE) as [[| ? | ?]|] eqn:?
      end;
  cbn [files log write_denied];
  try match goal with
      | |- context [write_denied w] =>
          destruct (write_denied w) as [?|] eqn:?
      end;
  try match goal with
      | |- context [utf8_encodable ?p] =>
          destruct (utf8_encodable p) eqn:?
      end;
  cbn [fst snd print eprint with_files files stdout stderr events log].

(** X15. How a run fails. When the input is missing, a directory or
    unreadable, when the loader raises or when [generate_html] raises, the
    run ends with status 1, one entry on the error stream, nothing
    printed and the files as they were; so it does when the output path
    is a directory or cannot be opened for writing. When the page is
    rendered and the output is opened but the page cannot be encoded, the
    run ends with status 1 as well, with the output file left empty and
    the input file as it was. *)
Theorem run_failures (rt : Runtime) (w : world) :
  ((find_node (files w) IN_FILE = None \/
    find_node (files w) IN_FILE = Some Directory \/
    (exists e, find_node (files w) IN_FILE = Some (Unreadable e)) \/
    (exists text e,
       find_node (files w) IN_FILE = Some (TextFile text) /\
       safe_load rt text = Raise e) \/
    (exists text doc e,
       find_node (files w) IN_FILE = Some (TextFile text) /\
       safe_load rt text = Ok doc /\
       generate_html rt (py_or doc (VDict [])) = Raise e)) ->
   fst (run_script rt w) = 1%Z /\
   files (snd (run_script rt w)) = files w /\
   stdout (snd (run_script rt w)) = stdout w /\
   (exists l, stderr (snd (run_script rt w)) = stderr w ++ [l]) /\
   ~ In (EvWriteText OUT_FILE) (skipn (List.length (events w))
                                  (events (snd (run_script rt w))))) /\
  (forall text doc page,
     find_node (files w) IN_FILE = Some (TextFile text) ->
     safe_load rt text = Ok doc ->
     generate_html rt (py_or doc (VDict [])) = Ok page ->
     (find_node (files w) OUT_FILE = Some Directory \/
      exists e, write_denied w = Some e) ->
     fst (run_script rt w) = 1%Z /\
     files (snd (run_script rt w)) = files w /\
     stdout (snd (run_script rt w)) = stdout w /\
     (exists l, stderr (snd (run_script rt w)) = stderr w ++ [l])) /\
  (forall text doc page,
     find_node (files w) IN_FILE = Some (TextFile text) ->
     safe_load rt text = Ok doc ->
     generate_html rt (py_or doc (VDict [])) = Ok page ->
     find_node (files w) OUT_FILE <> Some Directory ->
     write_denied w = None ->
     utf8_encodable page = false ->
     fst (run_script rt w) = 1%Z /\
     files (snd (run_script rt w)) = set_node (files w) OUT_FILE (TextFile []) /\
     find_node (files (snd (run_script rt w))) IN_FILE = Some (TextFile text) /\
     stdout (snd (run_script rt w)) = stdout w /\
     stderr (snd (run_script rt w)) = stderr w ++ [Traceback UnicodeEncodeError]).
Proof.
  split; [|split].
  - intros H.
    assert (K : forall (l l' : list event), skipn (List.length l) (l ++ l') = l').
    { intros l l'. induction l; [reflexivity | exact IHl]. }
    destruct H as [H | [H | [[e H] | [[text [e [H Hl]]] | [text [doc [e [H [Hl Hg]]]]]]]]];
      unfold run_script, main, path_exists, load_yaml; cbn [files log];
      rewrite H; cbn [negb]; rewrite ?Hl, ?Hg;
      cbn [fst snd eprint files stdout stderr events log];
      rewrite <- ?app_assoc, K; cbn [app In];
      (split; [reflexivity|]); (split; [reflexivity|]); (split; [reflexivity|]);
      (split; [eexists; reflexivity|]); intuition discriminate.
  - intros text doc page Hin Hl Hg Ho.
    unfold run_script, main, path_exists, load_yaml, write_text; cbn [files log].
    rewrite Hin. cbn [negb]. rewrite Hl, Hg. cbn [files log write_denied].
    destruct Ho as [Ho | [e Ho]].
    + rewrite Ho. cbn [fst snd eprint files stdout stderr log].
      repeat split. now eexists.
    + rewrite Ho.
      destruct (find_node (files w) OUT_FILE) as [[| |]|];
        cbn [fst snd eprint files stdout stderr log]; repeat split; now eexists.
  - intros text doc page Hin Hl Hg Ho Hw Hp.
    unfold run_script, main, path_exists, load_yaml, write_text; cbn [files log].
    rewrite Hin. cbn [negb]. rewrite Hl, Hg. cbn [files log write_denied].
    rewrite Hw, Hp.
    destruct (find_node (files w) OUT_FILE) as [[| |]|]; try congruence;
      cbn [fst snd eprint with_files files stdout stderr log];
      rewrite find_set_node_other by reflexivity; auto.
Qed.

Lemma run_failures_witness :
  find_node
    (files (snd (run_script
       surrogate_runtime
       {| files := [(IN_FILE, TextFile (q "name: x")); (OUT_FILE, TextFile (q "old"))];
          write_denied := None; stdout := []; stderr := []; events := [] |})))
    OUT_FILE
  = Some (TextFile []).
Proof.
  pose proof (proj2 (proj2 (run_failures
       surrogate_runtime
       {| files := [(IN_FILE, TextFile (q "name: x")); (OUT_FILE, TextFile (q "old"))];
          write_denied := None; stdout := []; stderr := []; events := [] |}))
       (q "name: x") (VDict [(KStr (q "name"), VStr [55296%N])])
       (assemble [55296%N] [] [])
       eq_refl eq_refl eq_refl ltac:(discriminate) eq_refl
       ltac:(vm_compute; reflexivity)) as H.
  destruct H as [_ [H _]]. rewrite H. reflexivity.
Defined.

(** X16. The output file is opened for writing only once the whole page
    exists: the run first asks whether the input is there, and a write is
    among its requests only if the input was a readable file, the loader
    returned a document and [generate_html] returned a page. *)
Theorem write_only_after_render (rt : Runtime) (w : world) :
  exists requests,
    events (snd (run_script rt w)) = events w ++ EvExists IN_FILE :: requests /\
    (In (EvWriteText OUT_FILE) requests ->
     exists text doc page,
       find_node (files w) IN_FILE = Some (TextFile text) /\
       safe_load rt text = Ok doc /\
       generate_html rt (py_or doc (VDict [])) = Ok page).
Proof.
  run_cases rt w; rewrite <- ?app_assoc; cbn [app];
    eexists; (split; [reflexivity|]); cbn [In]; intros H;
    try (do 3 eexists; repeat split; eassumption);
    repeat (destruct H as [H|H]; try discriminate H); contradiction.
Qed.

(** A run whose input loads and renders and whose output can be written. *)
Lemma run_success (rt : Runtime) (w : world) (text : str) (doc : value) (page : str) :
  find_node (files w) IN_FILE = Some (TextFile text) ->
  safe_load rt text = Ok doc ->
  generate_html rt (py_or doc (VDict [])) = Ok page ->
  find_node (files w) OUT_FILE <> Some Directory ->
  write_denied w = None ->
  utf8_encodable page = true ->
  fst (run_script rt w) = 0%Z /\
  find_node (files (snd (run_script rt w))) OUT_FILE = Some (TextFile page).
Proof.
  intros H1 H2 H3 H4 H5 H6. run_cases rt w; try congruence;
    (split; [reflexivity|]);
    rewrite find_set_node; congruence.
Qed.

(** X17. An empty input file is a document with nothing in it: when the
    loader returns a falsy value ([None] for an empty file), [load_yaml]
    gives the empty mapping and the run writes the page of the defaults:
    the title [Schedule], an empty semester and no day. *)
Theorem empty_input_default_page (rt : Runtime) (w : world) (text : str) (v : value) :
  find_node (files w) IN_FILE = Some (TextFile text) ->
  safe_load rt text = Ok v ->
  truthy v = false ->
  find_node (files w) OUT_FILE <> Some Directory ->
  write_denied w = None ->
  fst (load_yaml rt IN_FILE w) = Ok (VDict []) /\
  fst (run_script rt w) = 0%Z /\
  find_node (files (snd (run_script rt w))) OUT_FILE =
    Some (TextFile (intended_page (q "Schedule") [] [])).
Proof.
  intros Hin Hload Hv Hout Hw.
  assert (Hdoc : py_or v (VDict []) = VDict []) by (unfold py_or; now rewrite Hv).
  split.
  { unfold load_yaml. cbn [files log]. rewrite Hin, Hload. cbn [fst]. now rewrite Hdoc. }
  apply (run_success rt w text v); try assumption; [|closed_side].
  rewrite Hdoc, generate_html_unfold.
  change (doc_days_html rt (py_or (dict_get [] (KStr (q "week")) (VDict [])) (VDict [])))
    with (@Ok str []).
  cbn [bind]. now rewrite assemble_intended by closed_side.
Qed.

Lemma empty_input_default_page_witness :
  find_node
    (files (snd (run_script example_runtime
       {| files := [(IN_FILE, TextFile [])]; write_denied := None;
          stdout := []; stderr := []; events := [] |}))) OUT_FILE
  = Some (TextFile (intended_page (q "Schedule") [] [])).
Proof.
  apply (proj2 (proj2 (empty_input_default_page example_runtime
           {| files := [(IN_FILE, TextFile [])]; write_denied := None;
              stdout := []; stderr := []; events := [] |} [] VNone
           eq_refl eq_refl eq_refl ltac:(discriminate) eq_refl))).
Defined.



(* ===================================================================== *)
(** ** More on the header of a day *)
(* ===================================================================== *)

Lemma ascii_lower_fix (c : N) :
  negb ((65 <=? c)%N && (c <=? 90)%N) = true -> ascii_lower c = c.
Proof.
  unfold ascii_lower. now destruct ((65 <=? c)%N && (c <=? 90)%N).
Qed.

Lemma ascii_lower_no_upper (c : N) :
  negb ((65 <=? ascii_lower c)%N && (ascii_lower c <=? 90)%N) = true.
Proof.
  unfold ascii_lower.
  destruct ((65 <=? c)%N && (c <=? 90)%N) eqn:E.
  - apply andb_prop in E. destruct E as [E1 E2].
    apply N.leb_le in E1, E2. apply negb_true_iff, andb_false_iff. right.
    apply N.leb_gt. lia.
  - now rewrite E.
Qed.

Lemma ascii_lower_ascii (c : N) : is_ascii c = true -> is_ascii (ascii_lower c) = true.
Proof.
  unfold is_ascii, ascii_lower. intros H. apply N.ltb_lt in H.
  destruct ((65 <=? c)%N && (c <=? 90)%N) eqn:E; [|now apply N.ltb_lt].
  apply andb_prop in E. destruct E as [_ E]. apply N.leb_le in E.
  apply N.ltb_lt. lia.
Qed.

Lemma ascii_upper_ascii (c : N) : is_ascii c = true -> is_ascii (ascii_upper c) = true.
Proof.
  unfold is_ascii, ascii_upper. intros H. apply N.ltb_lt in H.
  destruct ((97 <=? c)%N && (c <=? 122)%N); apply N.ltb_lt; lia.
Qed.

Lemma ascii_upper_twice (c : N) : ascii_upper (ascii_upper c) = ascii_upper c.
Proof.
  unfold ascii_upper.
  destruct ((97 <=? c)%N && (c <=? 122)%N) eqn:E; [|now rewrite E].
  apply andb_prop in E. destruct E as [E1 E2]. apply N.leb_le in E1, E2.
  assert (F : (97 <=? c - 32)%N = false) by (apply N.leb_gt; lia).
  now rewrite F.
Qed.

(** X19. On an ASCII key, [capitalize] keeps the length; when the
    characters after the first hold no upper-case letter, as in the seven
    conventional days, only the first character can change; and
    capitalising twice is capitalising once. *)
Theorem capitalize_ascii_keys (rt : Runtime) (c : N) (r : str) :
  forallb is_ascii (c :: r) = true ->
  List.length (capitalize rt (c :: r)) = List.length (c :: r) /\
  (no_upper r = true -> capitalize rt (c :: r) = ascii_upper c :: r) /\
  capitalize rt (capitalize rt (c :: r)) = capitalize rt (c :: r).
Proof.
  intros H. rewrite (capitalize_ascii rt c r H).
  cbn [forallb] in H. apply andb_prop in H. destruct H as [Hc Hr].
  split; [cbn [List.length]; now rewrite length_map|].
  split.
  - intros Hu. f_equal. unfold no_upper in Hu.
    induction r as [|x r IH]; [reflexivity|].
    cbn [forallb] in Hu, Hr. apply andb_prop in Hu. destruct Hu as [Hx Hu].
    apply andb_prop in Hr. destruct Hr as [_ Hr].
    cbn [map]. now rewrite (ascii_lower_fix x Hx), (IH Hr Hu).
  - rewrite capitalize_ascii.
    + rewrite ascii_upper_twice, map_map. f_equal.
      apply map_ext. intros x. apply ascii_lower_fix, ascii_lower_no_upper.
    + cbn [forallb]. rewrite (ascii_upper_ascii c Hc). cbn [andb].
      rewrite forallb_forall in Hr. apply forallb_forall. intros y Hy.
      apply in_map_iff in Hy. destruct Hy as [x [<- Hx]].
      apply ascii_lower_ascii. now apply Hr.
Qed.

Lemma capitalize_ascii_keys_witness :
  capitalize example_runtime (q "monday") = q "Monday".
Proof.
  exact (proj1 (proj2 (capitalize_ascii_keys example_runtime 109%N (q "onday") eq_refl))
           eq_refl).
Defined.

(* ===================================================================== *)
(** ** The markup of the day sections *)
(* ===================================================================== *)

Lemma bracket_special (c : N) :
  bracket c -> c = 60%N \/ c = 62%N \/ c = 34%N \/ c = 39%N.
Proof. unfold bracket. tauto. Qed.

Lemma mapM_count {A} (f : A -> result str) (g : A -> nat) (c : N) (l : list A) :
  Forall (fun x => exists y, f x = Ok y /\ count_char c y = g x) l ->
  exists ys,
    mapM f l = Ok ys /\
    list_sum (map (count_char c) ys) = list_sum (map g l).
Proof.
  induction 1 as [|a l [y [Hy Hc]] _ [ys [Hys Hs]]]; [now exists []|].
  exists (y :: ys). cbn [mapM]. rewrite Hy, Hys. split; [reflexivity|].
  unfold list_sum in *. cbn [map fold_right]. now rewrite Hc, Hs.
Qed.

Lemma render_lecture_count (rt : Runtime) (c : N) (v : value) :
  bracket c -> wf_lecture v = true ->
  exists out, render_lecture rt v = Ok out /\ count_char c out = lecture_brackets v.
Proof.
  intros Hc. destruct v as [| | | | |d]; try discriminate.
  cbn [wf_lecture lecture_brackets]. intros H.
  destruct (render_attendees_ok rt _ H) as [ah [Hr [H60 H62]]].
  rewrite render_lecture_unfold, Hr. eexists. split; [reflexivity|].
  unfold lecture_markup. rewrite !count_char_app.
  rewrite !count_char_escape by now apply bracket_special.
  destruct Hc as [-> | ->]; [rewrite H60 | rewrite H62]; count_literals; lia.
Qed.

Lemma time_str_count (rt : Runtime) (c : N) (s e : value) :
  bracket c -> count_char c (time_str rt s e) = 0.
Proof.
  intros Hc. unfold time_str.
  destruct (truthy s || truthy e).
  - rewrite !count_char_app.
    rewrite !count_char_escape by now apply bracket_special.
    destruct Hc as [-> | ->]; reflexivity.
  - destruct Hc as [-> | ->]; reflexivity.
Qed.

Lemma forallb_Forall_count (p : value -> bool) (f : value -> result str)
  (g : value -> nat) (c : N) (l : list value) :
  (forall x, p x = true -> exists y, f x = Ok y /\ count_char c y = g x) ->
  forallb p l = true ->
  Forall (fun x => exists y, f x = Ok y /\ count_char c y = g x) l.
Proof.
  intros H Hl. apply Forall_forall. intros x Hx. apply H.
  rewrite forallb_forall in Hl. now apply Hl.
Qed.

Lemma count_char_NL (c : N) : bracket c -> count_char c NL = 0.
Proof. intros [-> | ->]; reflexivity. Qed.

Lemma render_slot_count (rt : Runtime) (c : N) (v : value) :
  bracket c -> wf_slot v = true ->
  exists out, render_slot rt v = Ok out /\ count_char c out = slot_brackets v.
Proof.
  intros Hc. destruct v as [| | | | |d]; try discriminate.
  cbn [wf_slot slot_brackets]. intros H.
  apply andb_prop in H. destruct H as [Ht Hl].
  destruct (slot_start_end_ok _ Ht) as [se Hse].
  assert (L : exists lh,
    slot_lectures_html rt d = Ok lh /\
    count_char c lh =
      list_sum (map lecture_brackets
                  (items_of (dict_get d (KStr (q "lectures")) (VList []))))).
  { unfold wf_lectures in Hl. unfold slot_lectures_html, py_or.
    destruct (truthy (dict_get d (KStr (q "lectures")) (VList []))) eqn:T;
      cbn [negb orb] in Hl.
    - destruct (dict_get d (KStr (q "lectures")) (VList [])) as [| | | |ls|];
        try discriminate Hl.
      cbn [py_iter bind items_of].
      destruct (mapM_count (render_lecture rt) lecture_brackets c ls) as [hs [Hhs Hs]].
      { apply (forallb_Forall_count wf_lecture); [|exact Hl].
        intros x Hx. now apply render_lecture_count. }
      rewrite Hhs. eexists. split; [reflexivity|].
      now rewrite count_char_join by now apply count_char_NL.
    - exists []. split; [reflexivity|].
      destruct (dict_get d (KStr (q "lectures")) (VList [])) as [| | | |[|x ls]|];
        try reflexivity; discriminate T. }
  destruct L as [lh [Hlh Hcl]].
  rewrite render_slot_unfold, Hse, Hlh. eexists. split; [reflexivity|].
  unfold slot_markup. rewrite !count_char_app, Hcl, time_str_count by exact Hc.
  destruct Hc as [-> | ->]; count_literals; lia.
Qed.

Lemma section_count (rt : Runtime) (c : N) (w : dict) (day : key) :
  bracket c ->
  forallb (fun kv => is_text_key (fst kv) && wf_slots (snd kv)) w = true ->
  is_text_key day = true ->
  has_slots w day = true ->
  exists sec, section_of rt w day = Ok sec /\ count_char c sec = day_brackets w day.
Proof.
  intros Hc Hw Hk Hs. unfold section_of, day_brackets, has_slots in *.
  assert (V : exists ss, day_slots w day = VList ss /\ forallb wf_slot ss = true).
  { unfold day_slots, dict_get, py_or in *.
    destruct (lookup w day) as [v|] eqn:L; [|discriminate Hs].
    destruct (truthy v) eqn:T; [|discriminate Hs].
    destruct (lookup_in _ _ _ L) as [k' Hin].
    rewrite forallb_forall in Hw. specialize (Hw _ Hin). cbn [fst snd] in Hw.
    apply andb_prop in Hw. destruct Hw as [_ Hv].
    unfold wf_slots in Hv. rewrite T in Hv. cbn [negb orb] in Hv.
    destruct v as [| | | |ss|]; try discriminate Hv. now exists ss. }
  destruct V as [ss [-> Hss]]. cbn [items_of].
  destruct (mapM_count (render_slot rt) slot_brackets c ss) as [hs [Hhs Hsum]].
  { apply (forallb_Forall_count wf_slot); [|exact Hss].
    intros x Hx. now apply render_slot_count. }
  destruct day as [| | |s]; try discriminate Hk.
  unfold day_section, day_slots_html. cbn [py_iter bind key_capitalize].
  rewrite Hhs. cbn [bind]. eexists. split; [reflexivity|].
  unfold section_markup. rewrite !count_char_app.
  rewrite count_char_escape by now apply bracket_special.
  rewrite count_char_join by now apply count_char_NL.
  rewrite Hsum. destruct Hc as [-> | ->]; count_literals; lia.
Qed.

Lemma days_count (rt : Runtime) (c : N) (w : dict) :
  bracket c ->
  forallb (fun kv => is_text_key (fst kv) && wf_slots (snd kv)) w = true ->
  exists out, doc_days_html rt (VDict w) = Ok out /\ count_char c out = week_brackets w.
Proof.
  intros Hc Hw. unfold doc_days_html, week_brackets. cbn [week_dict bind].
  rewrite days_html_parts_filter.
  destruct (mapM_count (section_of rt w) (day_brackets w) c
              (filter (has_slots w) (order_days w))) as [parts [Hp Hs]].
  { apply Forall_forall. intros k Hk. apply filter_In in Hk.
    destruct Hk as [Hk Hsl]. apply section_count; try assumption.
    pose proof (order_days_text_keys w Hw) as F.
    rewrite Forall_forall in F. now apply F. }
  rewrite Hp. eexists. split; [reflexivity|].
  now rewrite count_char_join by now apply count_char_NL.
Qed.

(** X20. No text of the document can add a tag to the day sections. For a
    week of the usual shape the sections render, and their opening angle
    brackets, like their closing ones, are counted by the shape alone:
    eight for each day that has slots, six for each slot, six for each
    lecture and two for each attendee, whatever the names, the titles,
    the times and the attendees hold. *)
Theorem day_sections_markup_only (rt : Runtime) (w : dict) :
  forallb (fun kv => is_text_key (fst kv) && wf_slots (snd kv)) w = true ->
  exists out,
    doc_days_html rt (VDict w) = Ok out /\
    count_char 60 out = week_brackets w /\
    count_char 62 out = week_brackets w.
Proof.
  intros Hw.
  destruct (days_count rt 60 w (or_introl eq_refl) Hw) as [out [Ho H60]].
  destruct (days_count rt 62 w (or_intror eq_refl) Hw) as [out' [Ho' H62]].
  rewrite Ho in Ho'. injection Ho' as <-.
  exists out. auto.
Qed.

Lemma day_sections_markup_only_witness :
  exists out,
    doc_days_html example_runtime
      (VDict [(KStr (q "<b>day</b>"),
               VList [VDict [(KStr (q "time"), VList [VStr (q "<i>"); VStr (q "</i>")]);
                             (KStr (q "lectures"),
                              VList [VDict [(KStr (q "lecture"), VStr (q "<script>"));
                                            (KStr (q "attendees"),
                                             VList [VStr (q "<a>"); VStr (q "B")])]])]])])
      = Ok out /\
    count_char 60 out = 24 /\ count_char 62 out = 24.
Proof.
  apply (day_sections_markup_only example_runtime
      [(KStr (q "<b>day</b>"),
        VList [VDict [(KStr (q "time"), VList [VStr (q "<i>"); VStr (q "</i>")]);
                      (KStr (q "lectures"),
                       VList [VDict [(KStr (q "lecture"), VStr (q "<script>"));
                                     (KStr (q "attendees"),
                                      VList [VStr (q "<a>"); VStr (q "B")])]])]])]).
  reflexivity.
Defined.

Lemma write_only_after_render_witness :
  exists requests,
    events (snd (run_script example_runtime
       {| files := [(IN_FILE, TextFile (q "name: ["))]; write_denied := None;
          stdout := []; stderr := []; events := [] |}))
      = [] ++ EvExists IN_FILE :: requests /\
    ~ In (EvWriteText OUT_FILE) requests.
Proof.
  destruct (write_only_after_render example_runtime
       {| files := [(IN_FILE, TextFile (q "name: ["))]; write_denied := None;
          stdout := []; stderr := []; events := [] |}) as [requests [He Hi]].
  exists requests. split; [exact He|].
  intros H. destruct (Hi H) as [text [doc [page [Hin [Hload _]]]]].
  injection Hin as <-. discriminate Hload.
Defined.
